(** * The review-reply pipeline of [functions/reply_reviews.py]

    A shallow embedding of the pipeline (fetch, generate, publish and the
    HTTP entry point) and the properties its specification states.

    Conventions of the embedding.
    - A Python [str] is a Rocq [string] whose characters are the code
      points below 256.
    - A decoded JSON payload is a [json] value; a JSON object is an
      association list in insertion order, read by its first binding
      (a decoded [dict] holds every key once).  Numbers are integers.
    - A naive [datetime] is a number of microseconds since
      0001-01-01T00:00:00, with the range of the [datetime] type.
    - The network is a script: the n-th request of each kind receives the
      n-th answer of the script, and every request made is recorded in a
      trace of events.  A deterministic program cannot tell a script from
      a live peer.
    - Library functions whose full behaviour is outside the repository
      ([json.loads], [datetime.strptime], [int]) are Section variables.
      Basic instances of them are given for running the model on concrete
      inputs.
    - Log lines are not modelled; an exception keeps the constant prefix of
      its message. *)

From Stdlib Require Import List String Ascii ZArith Lia Bool Arith PeanoNat.
From Stdlib Require Import DecimalString.
Import ListNotations.
Open Scope string_scope.
Open Scope list_scope.
Open Scope nat_scope.
Set Warnings "-register-all".

(** String concatenation, as [+] on Python strings and adjacent pieces of
    an f-string. *)
Infix "^^" := String.append (at level 60, right associativity).

(** ** Python strings *)

Module PyStr.

(** [str.isspace] on one character, for code points below 256. *)
Definition is_space (c : ascii) : bool :=
  let n := nat_of_ascii c in
  ((9 <=? n) && (n <=? 13)) || ((28 <=? n) && (n <=? 32))
  || (n =? 133) || (n =? 160).

Fixpoint lstrip (s : string) : string :=
  match s with
  | EmptyString => EmptyString
  | String c s' => if is_space c then lstrip s' else s
  end.

Fixpoint rstrip (s : string) : string :=
  match s with
  | EmptyString => EmptyString
  | String c s' =>
      match rstrip s' with
      | EmptyString => if is_space c then EmptyString else String c EmptyString
      | r => String c r
      end
  end.

(** [s.strip()] *)
Definition strip (s : string) : string := rstrip (lstrip s).

(** [s[n:]] for [n >= 0] *)
Fixpoint drop (n : nat) (s : string) : string :=
  match n, s with
  | O, _ => s
  | S n', EmptyString => EmptyString
  | S n', String _ s' => drop n' s'
  end.

(** [s[:n]] for [n >= 0] *)
Fixpoint take (n : nat) (s : string) : string :=
  match n, s with
  | O, _ => EmptyString
  | S n', EmptyString => EmptyString
  | S n', String c s' => String c (take n' s')
  end.

(** [s[:-k]] for [k > 0]: all but the last [k] characters. *)
Definition drop_last (k : nat) (s : string) : string :=
  take (String.length s - k) s.

(** [s.startswith(p)] *)
Definition startswith (p s : string) : bool := String.prefix p s.

(** [s.endswith(p)] *)
Definition endswith (p s : string) : bool :=
  (String.length p <=? String.length s)
  && String.eqb (drop (String.length s - String.length p) s) p.

(** [not s] for a string *)
Definition is_empty (s : string) : bool :=
  match s with EmptyString => true | _ => false end.

(** [str(n)] for a natural number *)
Definition of_nat (n : nat) : string := NilZero.string_of_uint (Nat.to_uint n).

(** [str(z)] for an integer *)
Definition of_Z (z : Z) : string := NilZero.string_of_int (Z.to_int z).

End PyStr.

(** ** Decoded JSON values and the Python operations used on them *)

Inductive json : Type :=
| JNull
| JBool (b : bool)
| JNum (n : Z)
| JStr (s : string)
| JArr (items : list json)
| JObj (fields : list (string * json)).

Inductive exn : Type :=
| ValueError (msg : string)
| RuntimeError (msg : string)
| AttributeError
| KeyError (key : string)
| TypeError
| OverflowError.

(** What a call does: it returns, it raises, or (for a loop run with a
    bounded number of iterations) it is still running. *)
Inductive outcome (A : Type) : Type :=
| Return (a : A)
| Raise (e : exn)
| Running.
Arguments Return {A} a.
Arguments Raise {A} e.
Arguments Running {A}.

Module Py.

Fixpoint dict_get (k : string) (d : list (string * json)) : option json :=
  match d with
  | [] => None
  | (k', v) :: d' => if String.eqb k k' then Some v else dict_get k d'
  end.

(** [k in d] *)
Definition has_key (k : string) (d : list (string * json)) : bool :=
  match dict_get k d with Some _ => true | None => false end.

(** [v.get(k)]: only a dict has the method. *)
Definition get (v : json) (k : string) : outcome (option json) :=
  match v with
  | JObj d => Return (dict_get k d)
  | _ => Raise AttributeError
  end.

(** [v.get(k, default)] *)
Definition get_default (v : json) (k : string) (default : json) : outcome json :=
  match v with
  | JObj d => Return (match dict_get k d with Some x => x | None => default end)
  | _ => Raise AttributeError
  end.

(** [v[k]] for a string key [k] *)
Definition subscript (v : json) (k : string) : outcome json :=
  match v with
  | JObj d => match dict_get k d with
              | Some x => Return x
              | None => Raise (KeyError k)
              end
  | _ => Raise TypeError
  end.

(** Truth value of a decoded JSON value. *)
Definition truthy (v : json) : bool :=
  match v with
  | JNull => false
  | JBool b => b
  | JNum n => negb (Z.eqb n 0)
  | JStr s => negb (PyStr.is_empty s)
  | JArr l => match l with [] => false | _ => true end
  | JObj d => match d with [] => false | _ => true end
  end.

(** Truth value of the result of [v.get(k)] ([None] when the key is absent). *)
Definition truthy_opt (o : option json) : bool :=
  match o with Some v => truthy v | None => false end.

(** The items produced by [for x in v]; [None] when [v] is not iterable.
    A dict yields its keys, a string its characters. *)
Definition iterate (v : json) : option (list json) :=
  match v with
  | JArr l => Some l
  | JObj d => Some (map (fun kv => JStr (fst kv)) d)
  | JStr s => Some (map (fun c => JStr (String c EmptyString)) (list_ascii_of_string s))
  | _ => None
  end.

End Py.

(** [x <- e ;; k]: run [e]; an exception or an unfinished loop ends the
    computation, a value is passed on. *)
Definition bind {A B : Type} (o : outcome A) (k : A -> outcome B) : outcome B :=
  match o with
  | Return a => k a
  | Raise e => Raise e
  | Running => Running
  end.

Notation "x <- e ;; k" := (bind e (fun x => k))
  (at level 61, e at next level, right associativity).

(** ** [str()] of a decoded JSON value, as an f-string interpolates it *)

Module PyFormat.

Definition NL : string := String (ascii_of_nat 10) EmptyString.

(** The double-quote character. *)
Definition DQUOTE : ascii := ascii_of_nat 34.

Definition hex_digit (n : nat) : ascii :=
  match String.get n "0123456789abcdef" with
  | Some c => c
  | None => "0"%char
  end.

(** Characters that [repr] writes as they are. *)
Definition is_printable (c : ascii) : bool :=
  let n := nat_of_ascii c in
  ((32 <=? n) && (n <=? 126)) || ((161 <=? n) && negb (n =? 173)).

Definition repr_char (quote c : ascii) : string :=
  let n := nat_of_ascii c in
  if Ascii.eqb c "\"%char then "\\"
  else if Ascii.eqb c quote then String "\"%char (String c EmptyString)
  else if n =? 9 then "\t"
  else if n =? 10 then "\n"
  else if n =? 13 then "\r"
  else if is_printable c then String c EmptyString
  else String "\"%char (String "x"%char
         (String (hex_digit (n / 16)) (String (hex_digit (n mod 16)) EmptyString))).

Fixpoint contains (c : ascii) (s : string) : bool :=
  match s with
  | EmptyString => false
  | String c' s' => Ascii.eqb c c' || contains c s'
  end.

Fixpoint repr_chars (quote : ascii) (s : string) : string :=
  match s with
  | EmptyString => EmptyString
  | String c s' => repr_char quote c ^^ repr_chars quote s'
  end.

(** [repr(s)]: single quotes, unless [s] has a single quote and no double
    quote. *)
Definition repr_str (s : string) : string :=
  let quote := if contains "'"%char s && negb (contains DQUOTE s)
               then DQUOTE else "'"%char in
  String quote (repr_chars quote s ^^ String quote EmptyString).

Fixpoint join (sep : string) (l : list string) : string :=
  match l with
  | [] => EmptyString
  | [x] => x
  | x :: l' => x ^^ sep ^^ join sep l'
  end.

Fixpoint repr (v : json) : string :=
  match v with
  | JNull => "None"
  | JBool true => "True"
  | JBool false => "False"
  | JNum n => PyStr.of_Z n
  | JStr s => repr_str s
  | JArr l => "[" ^^ join ", " (map repr l) ^^ "]"
  | JObj d => "{" ^^ join ", " (map (fun kv => repr_str (fst kv) ^^ ": " ^^ repr (snd kv)) d) ^^ "}"
  end.

(** [str(v)], the text [f"{v}"] puts in place of [v]. *)
Definition str (v : json) : string :=
  match v with
  | JStr s => s
  | _ => repr v
  end.

End PyFormat.

(** ** Naive datetimes *)

Module Clock.

Definition US_PER_DAY : Z := 86400000000.

(** [datetime.max], 9999-12-31T23:59:59.999999, counted from [datetime.min]. *)
Definition MAX_US : Z := 3652059 * US_PER_DAY - 1.

(** Largest magnitude of the [days] of a [timedelta]. *)
Definition MAX_DELTA_DAYS : Z := 999999999.

(** [now - timedelta(days=d)]: both the [timedelta] and the difference
    must be representable. *)
Definition minus_days (now d : Z) : outcome Z :=
  if (Z.abs d >? MAX_DELTA_DAYS)%Z then Raise OverflowError
  else
    let t := (now - d * US_PER_DAY)%Z in
    if ((0 <=? t) && (t <=? MAX_US))%Z then Return t else Raise OverflowError.

End Clock.

(** ** The network: requests made and answers received *)

(** One request of the run, as the peer sees it. *)
Inductive event : Type :=
| GetReviews (url : string) (page_token : option string)
    (* GET url, params {"pageToken": t} or {} *)
| ChatCompletion (prompt : string)
    (* one chat completion request with this user message *)
| PutReply (url : string) (comment : json).
    (* PUT url, body {"comment": comment} *)

(** The decoded body of a successful reviews request:
    [data.get("reviews", [])] and [data.get("nextPageToken")]. *)
Record page : Type := mkPage {
  reviews : list json;
  nextPageToken : option string
}.

(** Answer to a reviews request.  [HttpError] is an answer on which the
    client raises [ClientResponseError] (a non-2xx status, 404 included),
    [TransportError] anything else that makes the token refresh, the request
    or the reading of the body raise. *)
Inductive response : Type :=
| HttpError (status : nat)
| TransportError
| Page (data : page).

(** Answer to a chat completion request: the call raises, the message has no
    content, or it has this text. *)
Inductive completion : Type :=
| ApiError
| NoContent
| Content (text : string).

Record network : Type := mkNetwork {
  feed : nat -> response;      (* answer to the n-th GET *)
  chat : nat -> completion;    (* answer to the n-th completion request *)
  put : nat -> bool            (* does the n-th PUT succeed *)
}.

(** ** Location identifiers and platform URLs *)

Definition BASE_URL_LOCATIONS_V4 : string := "https://mybusiness.googleapis.com/v4".

(** [if not s.startswith(p): s = f"{p}{s}"] *)
Definition with_prefix (p s : string) : string :=
  if PyStr.startswith p s then s else p ^^ s.

Definition normalize_account (account_id : string) : string :=
  with_prefix "accounts/" account_id.

Definition normalize_location (location_id : string) : string :=
  with_prefix "locations/" location_id.

(** The URL [fetch_gmb_reviews] requests. *)
Definition reviews_url (account_id location_id : string) : string :=
  let account_id := normalize_account account_id in
  let location_id := normalize_location location_id in
  BASE_URL_LOCATIONS_V4 ^^ "/" ^^ account_id ^^ "/" ^^ location_id ^^ "/reviews".

(** The URL [post_review_reply] requests. *)
Definition reply_url (account_id location_id : string) (review_id : json) : string :=
  let account_id := normalize_account account_id in
  let location_id := normalize_location location_id in
  BASE_URL_LOCATIONS_V4 ^^ "/" ^^ account_id ^^ "/" ^^ location_id
    ^^ "/reviews/" ^^ PyFormat.str review_id ^^ "/reply".

(** ** The pipeline *)

Section Pipeline.

(** [datetime.strptime(s, "%Y-%m-%dT%H:%M:%S.%fZ")]; [None] when it raises. *)
Variable strptime : string -> option Z.

(** [json.loads(s)]; [None] when it raises. *)
Variable json_loads : string -> option json.

(** [int(s)] for a string [s]; [None] when it raises. *)
Variable py_int : string -> option Z.

(** The instruction text that opens every prompt (persona, rules and example
    replies).  It has characters above code point 255. *)
Variable PROMPT_INSTRUCTIONS : string.

(** The [ENV] setting. *)
Variable ENV : string.

(** *** fetch_gmb_reviews *)

(** [datetime.strptime(review["createTime"], ...)]; [None] when the
    subscript or the parse raises. *)
Definition create_time (review : json) : option Z :=
  match Py.subscript review "createTime" with
  | Return (JStr s) => strptime s
  | _ => None
  end.

(** The comprehension that keeps the reviews of a page created at or after
    the cutoff; [None] when a timestamp makes it raise. *)
Fixpoint filter_reviews (cutoff_date : Z) (batch_reviews : list json)
  : option (list json) :=
  match batch_reviews with
  | [] => Some []
  | review :: rest =>
      match create_time review with
      | None => None
      | Some t =>
          match filter_reviews cutoff_date rest with
          | None => None
          | Some kept => Some (if (t >=? cutoff_date)%Z then review :: kept else kept)
          end
      end
  end.

(** [not next_page_token] is false exactly for a non-empty token. *)
Definition token_present (t : option string) : bool :=
  match t with
  | Some s => negb (PyStr.is_empty s)
  | None => false
  end.

(** The [while True] loop, run for at most [fuel] iterations.  [n] counts
    the requests already made, [acc] is [reviews]. *)
Fixpoint fetch_loop (fuel : nat) (server : nat -> response) (url : string)
    (cutoff_date : Z) (n : nat) (next_page_token : option string)
    (acc : list json) : outcome (list json) * list event :=
  match fuel with
  | O => (Running, [])
  | S fuel' =>
      let params := if token_present next_page_token then next_page_token else None in
      let request := GetReviews url params in
      match server n with
      | HttpError _ => (Raise (RuntimeError "Failed to fetch reviews"), [request])
      | TransportError =>
          (Raise (RuntimeError "Unexpected error fetching reviews"), [request])
      | Page data =>
          match filter_reviews cutoff_date (reviews data) with
          | None => (Raise (RuntimeError "Unexpected error fetching reviews"), [request])
          | Some filtered_reviews =>
              let acc' := acc ++ filtered_reviews in
              let next_page_token := nextPageToken data in
              if negb (token_present next_page_token)
                 || match filtered_reviews with [] => true | _ => false end
              then (Return acc', [request])
              else
                let (o, evs) :=
                  fetch_loop fuel' server url cutoff_date (S n) next_page_token acc' in
                (o, request :: evs)
          end
      end
  end.

(** [fetch_gmb_reviews(account_id, location_id, days)] called with an integer
    [days] (so [int(days)] is [days]) when the clock reads [now]. *)
Definition fetch_gmb_reviews (fuel : nat) (server : nat -> response) (now : Z)
    (account_id location_id : string) (days : Z)
  : outcome (list json) * list event :=
  if PyStr.is_empty account_id || PyStr.is_empty location_id
  then (Raise (ValueError "account_id and location_id must be provided"), [])
  else
    match Clock.minus_days now days with
    | Return cutoff_date =>
        fetch_loop fuel server (reviews_url account_id location_id)
                   cutoff_date 0 None []
    | Raise e => (Raise e, [])
    | Running => (Running, [])
    end.

(** *** generate_review_replies_batch *)

(** [range(start, stop, step)] for a positive [step], unrolled at most
    [fuel] times. *)
Fixpoint py_range (fuel start stop step : nat) : list nat :=
  match fuel with
  | O => []
  | S fuel' =>
      if start <? stop then start :: py_range fuel' (start + step) stop step
      else []
  end.

(** [l[i:j]] for [0 <= i <= j] *)
Definition slice {A : Type} (l : list A) (i j : nat) : list A :=
  firstn (j - i) (skipn i l).

(** The line of the prompt for the [j]-th review of the batch at offset [i]. *)
Definition prompt_line (i j : nat) (review : json) : outcome string :=
  review_id <- Py.get_default review "reviewId"
                 (JStr ("review_" ^^ PyStr.of_nat (i + j))) ;;
  reviewer <- Py.get_default review "reviewer" (JObj []) ;;
  reviewer_name <- Py.get_default reviewer "displayName" (JStr "Guest") ;;
  star_rating <- Py.get_default review "starRating" (JStr "UNKNOWN") ;;
  review_text <- Py.get_default review "comment" (JStr "") ;;
  Return (PyStr.of_nat j ^^ ". Review ID: " ^^ PyFormat.str review_id
          ^^ ", Reviewer Name: " ^^ PyFormat.str reviewer_name
          ^^ ", Star Rating: " ^^ PyFormat.str star_rating
          ^^ ", Text: " ^^ PyFormat.str review_text ^^ PyFormat.NL).

(** [for j, review in enumerate(batch, 1): prompt += ...], entered at [j]. *)
Fixpoint prompt_lines (i j : nat) (batch : list json) (prompt : string)
  : outcome string :=
  match batch with
  | [] => Return prompt
  | review :: rest =>
      line <- prompt_line i j review ;;
      prompt_lines i (S j) rest (prompt ^^ line)
  end.

Definition build_prompt (i : nat) (batch : list json) : outcome string :=
  prompt_lines i 1 batch PROMPT_INSTRUCTIONS.

(** The two fence tests, applied to the stripped message content. *)
Definition strip_code_fence (raw_content : string) : string :=
  let raw_content :=
    if PyStr.startswith "```json" raw_content
    then PyStr.strip (PyStr.drop 7 raw_content) else raw_content in
  if PyStr.endswith "```" raw_content
  then PyStr.strip (PyStr.drop_last 3 raw_content) else raw_content.

(** The text handed to [json.loads] for a message content. *)
Definition json_text (content : string) : string :=
  strip_code_fence (PyStr.strip content).

(** [isinstance(reply, dict) and "review_id" in reply and "reply_text" in reply] *)
Definition valid_reply (reply : json) : bool :=
  match reply with
  | JObj d => Py.has_key "review_id" d && Py.has_key "reply_text" d
  | _ => false
  end.

(** The body of the [try] for one batch: [Some replies] when it reaches
    [all_replies.extend(batch_replies)], which appends [replies]; [None]
    when an exception takes it to one of the two [except ... continue]. *)
Definition batch_replies (answer : completion) : option (list json) :=
  match answer with
  | ApiError => None
  | NoContent => None
  | Content text =>
      match json_loads (json_text text) with
      | None => None
      | Some parsed =>
          match Py.iterate parsed with
          | None => None
          | Some replies =>
              if forallb valid_reply replies then Some replies else None
          end
      end
  end.

(** The [for i in range(...)] loop over the remaining offsets; [k] counts the
    completion requests already made. *)
Fixpoint generate_loop (answers : nat -> completion) (reviews : list json)
    (batch_size : nat) (offsets : list nat) (k : nat) (all_replies : list json)
  : outcome (list json) * list event :=
  match offsets with
  | [] => (Return all_replies, [])
  | i :: rest =>
      let batch := slice reviews i (i + batch_size) in
      match build_prompt i batch with
      | Return prompt =>
          let all_replies :=
            match batch_replies (answers k) with
            | Some replies => all_replies ++ replies
            | None => all_replies
            end in
          let (o, evs) :=
            generate_loop answers reviews batch_size rest (S k) all_replies in
          (o, ChatCompletion prompt :: evs)
      | Raise e => (Raise e, [])
      | Running => (Running, [])
      end
  end.

Definition generate_review_replies_batch (answers : nat -> completion)
    (reviews : list json) (batch_size : Z) : outcome (list json) * list event :=
  if (batch_size =? 0)%Z
  then (Raise (ValueError "range() arg 3 must not be zero"), [])
  else if (batch_size <? 0)%Z then (Return [], [])
  else
    let step := Z.to_nat batch_size in
    generate_loop answers reviews step
      (py_range (List.length reviews) 0 (List.length reviews) step) 0 [].

(** *** post_review_reply *)

(** The [k]-th call of [post_review_reply]. *)
Definition post_review_reply (puts : nat -> bool) (k : nat)
    (account_id location_id : string) (review_id reply_text : json)
  : outcome unit * list event :=
  let request := PutReply (reply_url account_id location_id review_id) reply_text in
  if puts k then (Return tt, [request])
  else (Raise (RuntimeError "Failed to post reply"), [request]).

(** *** reply_to_unreplied_reviews *)

(** [not r.get("reviewReply") and r.get("comment", "").strip()], as a truth
    value. *)
Definition is_unreplied (r : json) : outcome bool :=
  reply <- Py.get r "reviewReply" ;;
  if Py.truthy_opt reply then Return false
  else
    comment <- Py.get_default r "comment" (JStr "") ;;
    match comment with
    | JStr s => Return (negb (PyStr.is_empty (PyStr.strip s)))
    | _ => Raise AttributeError
    end.

(** [[r for r in reviews if ...]] *)
Fixpoint unreplied (reviews : list json) : outcome (list json) :=
  match reviews with
  | [] => Return []
  | r :: rest =>
      keep <- is_unreplied r ;;
      kept <- unreplied rest ;;
      Return (if keep then r :: kept else kept)
  end.

(** [for review, reply in zip(unreplied_reviews, replies)], [k] publish
    calls already made. *)
Fixpoint publish_loop (puts : nat -> bool) (account_id location_id : string)
    (k : nat) (pairs : list (json * json)) : outcome unit * list event :=
  match pairs with
  | [] => (Return tt, [])
  | (review, reply) :: rest =>
      match Py.subscript review "reviewId" with
      | Return review_id =>
          match Py.subscript reply "reply_text" with
          | Return reply_text =>
              match post_review_reply puts k account_id location_id
                      review_id reply_text with
              | (Return _, evs) =>
                  let (o, evs') :=
                    publish_loop puts account_id location_id (S k) rest in
                  (o, evs ++ evs')
              | (o, evs) => (o, evs)
              end
          | Raise e => (Raise e, [])
          | Running => (Running, [])
          end
      | Raise e => (Raise e, [])
      | Running => (Running, [])
      end
  end.

Definition reply_to_unreplied_reviews (net : network) (reviews : list json)
    (account_id location_id : string) : outcome unit * list event :=
  match unreplied reviews with
  | Return [] => (Return tt, [])
  | Return unreplied_reviews =>
      match generate_review_replies_batch (chat net) unreplied_reviews 10 with
      | (Return replies, evs) =>
          let (o, evs') :=
            publish_loop (put net) account_id location_id 0
              (combine unreplied_reviews replies) in
          (o, evs ++ evs')
      | (o, evs) => (bind o (fun _ => Return tt), evs)
      end
  | Raise e => (Raise e, [])
  | Running => (Running, [])
  end.

(** *** reply_reviews, the HTTP entry point *)

Record request : Type := mkRequest {
  method : string;
  forwarded_proto : option string;   (* the X-Forwarded-Proto header *)
  host : string;
  path : string;
  query_string : string;
  arg_account_id : option string;
  arg_location_id : option string;
  arg_days : option string
}.

Inductive body : Type :=
| Redirect (target : string)   (* {"error": "HTTPS required", "redirect": target} *)
| NoBody                       (* {} *)
| ErrorText (msg : string)     (* {"error": msg} *)
| ErrorOf (e : exn)            (* {"error": str(e)} *)
| StatusText (msg : string).   (* {"status": msg} *)

Record http_response : Type := mkResponse {
  status : nat;
  content : body;
  cors_headers : bool
}.

(** [not s] for an optional argument of the query. *)
Definition arg_missing (a : option string) : bool :=
  match a with
  | Some s => PyStr.is_empty s
  | None => true
  end.

Definition or_default (a : option string) (default : string) : string :=
  match a with Some s => s | None => default end.

(** The handler, with [fuel] iterations allowed to the fetch loop at clock
    reading [now]; [None] when the fetch loop is still running. *)
Definition reply_reviews (fuel : nat) (net : network) (now : Z) (req : request)
  : option http_response * list event :=
  if String.eqb ENV "development"
     && negb (String.eqb (or_default (forwarded_proto req) "http") "https")
  then (Some (mkResponse 301
                (Redirect ("https://" ^^ host req ^^ path req ^^ query_string req))
                false), [])
  else if String.eqb (method req) "OPTIONS"
  then (Some (mkResponse 204 NoBody true), [])
  else if arg_missing (arg_account_id req) || arg_missing (arg_location_id req)
  then (Some (mkResponse 400 (ErrorText "account_id and location_id are required") true), [])
  else
    let account_id := or_default (arg_account_id req) "" in
    let location_id := or_default (arg_location_id req) "" in
    match py_int (or_default (arg_days req) "1") with
    | None => (Some (mkResponse 400 (ErrorText "Days must be an integer") true), [])
    | Some days_int =>
        match fetch_gmb_reviews fuel (feed net) now account_id location_id days_int with
        | (Return reviews, evs) =>
            match reply_to_unreplied_reviews net reviews account_id location_id with
            | (Return _, evs') =>
                match unreplied reviews with
                | Return l =>
                    (Some (mkResponse 200
                             (StatusText ("Processed " ^^ PyStr.of_nat (List.length l)
                                          ^^ " unreplied reviews")) true),
                     evs ++ evs')
                | Raise e => (Some (mkResponse 500 (ErrorOf e) true), evs ++ evs')
                | Running => (None, evs ++ evs')
                end
            | (Raise e, evs') => (Some (mkResponse 500 (ErrorOf e) true), evs ++ evs')
            | (Running, evs') => (None, evs ++ evs')
            end
        | (Raise e, evs) => (Some (mkResponse 500 (ErrorOf e) true), evs)
        | (Running, evs) => (None, evs)
        end
    end.

End Pipeline.

(** ** Basic instances of the library functions

    Each agrees with the library function on the strings it accepts and
    returns [None] on every string the library function rejects; it also
    returns [None] on some strings outside its fragment.  They serve to run
    the pipeline on concrete inputs. *)

Module Basic.

Notation "'read' x <- e ;; k" := (match e with Some x => k | None => None end)
  (at level 61, x pattern, e at next level, right associativity, only parsing).

Definition is_digit (c : ascii) : bool :=
  let n := nat_of_ascii c in (48 <=? n) && (n <=? 57).

Definition digit_value (c : ascii) : Z := Z.of_nat (nat_of_ascii c - 48).

(** Reads exactly [n] digits. *)
Fixpoint fixed_digits (n : nat) (s : string) (acc : Z) : option (Z * string) :=
  match n with
  | O => Some (acc, s)
  | S n' =>
      match s with
      | String c s' =>
          if is_digit c then fixed_digits n' s' (10 * acc + digit_value c)%Z
          else None
      | EmptyString => None
      end
  end.

(** Reads the longest run of digits, at most [n] long. *)
Fixpoint some_digits (n : nat) (s : string) (acc : Z) (count : nat)
  : Z * nat * string :=
  match n with
  | O => (acc, count, s)
  | S n' =>
      match s with
      | String c s' =>
          if is_digit c
          then some_digits n' s' (10 * acc + digit_value c)%Z (S count)
          else (acc, count, s)
      | EmptyString => (acc, count, s)
      end
  end.

(** Reads one given character. *)
Definition expect (c : ascii) (s : string) : option string :=
  match s with
  | String c' s' => if Ascii.eqb c c' then Some s' else None
  | EmptyString => None
  end.

Definition is_leap (y : Z) : bool :=
  ((y mod 4 =? 0) && (negb (y mod 100 =? 0) || (y mod 400 =? 0)))%Z.

Definition days_in_month (y m : Z) : Z :=
  if (m =? 2)%Z then (if is_leap y then 29 else 28)%Z
  else if ((m =? 4) || (m =? 6) || (m =? 9) || (m =? 11))%Z then 30%Z
  else 31%Z.

Definition days_before_year (y : Z) : Z :=
  let p := (y - 1)%Z in (p * 365 + p / 4 - p / 100 + p / 400)%Z.

Fixpoint days_before_month (y : Z) (m : nat) : Z :=
  match m with
  | O => 0%Z
  | S m' => (days_before_month y m' + days_in_month y (Z.of_nat m))%Z
  end.

(** Microseconds from 0001-01-01T00:00:00 to the given instant. *)
Definition to_microseconds (y m d hh mm ss frac : Z) : Z :=
  let days := (days_before_year y + days_before_month y (Z.to_nat m - 1) + (d - 1))%Z in
  ((days * 86400 + hh * 3600 + mm * 60 + ss) * 1000000 + frac)%Z.

(** [strptime] on timestamps written [YYYY-MM-DDTHH:MM:SS.f+Z] with all
    fields at full width and one to six fraction digits. *)
Definition strptime (s : string) : option Z :=
  read (y, s) <- fixed_digits 4 s 0%Z ;;
  read s <- expect "-"%char s ;;
  read (m, s) <- fixed_digits 2 s 0%Z ;;
  read s <- expect "-"%char s ;;
  read (d, s) <- fixed_digits 2 s 0%Z ;;
  read s <- expect "T"%char s ;;
  read (hh, s) <- fixed_digits 2 s 0%Z ;;
  read s <- expect ":"%char s ;;
  read (mm, s) <- fixed_digits 2 s 0%Z ;;
  read s <- expect ":"%char s ;;
  read (ss, s) <- fixed_digits 2 s 0%Z ;;
  read s <- expect "."%char s ;;
  let '(f, count, s) := some_digits 6 s 0%Z 0 in
  if (1 <=? count) && String.eqb s "Z"
     && (1 <=? y)%Z && (1 <=? m)%Z && (m <=? 12)%Z
     && (1 <=? d)%Z && (d <=? days_in_month y m)%Z
     && (hh <=? 23)%Z && (mm <=? 59)%Z && (ss <=? 59)%Z
  then Some (to_microseconds y m d hh mm ss (f * 10 ^ Z.of_nat (6 - count))%Z)
  else None.

(** The digits of an [int] literal after the sign: digits, with single
    underscores between them.  [after_digit] tells whether the previous
    character was a digit. *)
Fixpoint int_digits (s : string) (acc : Z) (after_digit : bool) : option Z :=
  match s with
  | EmptyString => if after_digit then Some acc else None
  | String c s' =>
      if is_digit c then int_digits s' (10 * acc + digit_value c)%Z true
      else if Ascii.eqb c "_"%char && after_digit then
        match s' with
        | String c' _ => if is_digit c' then int_digits s' acc false else None
        | EmptyString => None
        end
      else None
  end.

(** [int(s)] for a string of at most 4300 digits. *)
Definition py_int (s : string) : option Z :=
  match PyStr.strip s with
  | String c s' =>
      if Ascii.eqb c "-"%char then option_map Z.opp (int_digits s' 0%Z false)
      else if Ascii.eqb c "+"%char then int_digits s' 0%Z false
      else int_digits (String c s') 0%Z false
  | EmptyString => None
  end.

(** JSON whitespace *)
Definition is_json_ws (c : ascii) : bool :=
  let n := nat_of_ascii c in (n =? 32) || (n =? 9) || (n =? 10) || (n =? 13).

Fixpoint skip_ws (s : string) : string :=
  match s with
  | String c s' => if is_json_ws c then skip_ws s' else s
  | EmptyString => EmptyString
  end.

(** The character an escape [\e] stands for; [\u] is outside the fragment. *)
Definition unescape (e : ascii) : option ascii :=
  if Ascii.eqb e PyFormat.DQUOTE then Some PyFormat.DQUOTE
  else if Ascii.eqb e "\"%char then Some "\"%char
  else if Ascii.eqb e "/"%char then Some "/"%char
  else if Ascii.eqb e "b"%char then Some (ascii_of_nat 8)
  else if Ascii.eqb e "f"%char then Some (ascii_of_nat 12)
  else if Ascii.eqb e "n"%char then Some (ascii_of_nat 10)
  else if Ascii.eqb e "r"%char then Some (ascii_of_nat 13)
  else if Ascii.eqb e "t"%char then Some (ascii_of_nat 9)
  else None.

(** The characters of a string literal after its opening quote, and what
    follows the closing quote. *)
Fixpoint string_chars (s : string) : option (string * string) :=
  match s with
  | EmptyString => None
  | String c r =>
      if Ascii.eqb c PyFormat.DQUOTE then Some (EmptyString, r)
      else if Ascii.eqb c "\"%char then
        match r with
        | String e r' =>
            read decoded <- unescape e ;;
            read (chars, rest) <- string_chars r' ;;
            Some (String decoded chars, rest)
        | EmptyString => None
        end
      else if nat_of_ascii c <? 32 then None
      else
        read (chars, rest) <- string_chars r ;;
        Some (String c chars, rest)
  end.

Fixpoint digit_run (s : string) (acc : Z) : Z * string :=
  match s with
  | String c s' =>
      if is_digit c then digit_run s' (10 * acc + digit_value c)%Z else (acc, s)
  | EmptyString => (acc, s)
  end.

(** An integer literal; a fraction or an exponent is outside the fragment. *)
Definition number (s : string) : option (json * string) :=
  let (negative, s) :=
    match s with
    | String c s' => if Ascii.eqb c "-"%char then (true, s') else (false, s)
    | EmptyString => (false, s)
    end in
  match s with
  | String c s' =>
      if is_digit c then
        let (n, rest) :=
          if Ascii.eqb c "0"%char then (0%Z, s') else digit_run s 0%Z in
        match rest with
        | String c' _ =>
            if Ascii.eqb c' "."%char || Ascii.eqb c' "e"%char || Ascii.eqb c' "E"%char
            then None
            else Some (JNum (if negative then - n else n)%Z, rest)
        | EmptyString => Some (JNum (if negative then - n else n)%Z, rest)
        end
      else None
  | EmptyString => None
  end.

(** [d[k] = v] *)
Fixpoint dict_set (k : string) (v : json) (d : list (string * json))
  : list (string * json) :=
  match d with
  | [] => [(k, v)]
  | (k', v') :: d' =>
      if String.eqb k k' then (k, v) :: d' else (k', v') :: dict_set k v d'
  end.

Fixpoint value (fuel : nat) (s : string) {struct fuel} : option (json * string) :=
  match fuel with
  | O => None
  | S fuel' =>
      match skip_ws s with
      | EmptyString => None
      | String c r =>
          if Ascii.eqb c "["%char then
            match skip_ws r with
            | String c' r' =>
                if Ascii.eqb c' "]"%char then Some (JArr [], r') else items fuel' r []
            | EmptyString => None
            end
          else if Ascii.eqb c "{"%char then
            match skip_ws r with
            | String c' r' =>
                if Ascii.eqb c' "}"%char then Some (JObj [], r') else members fuel' r []
            | EmptyString => None
            end
          else if Ascii.eqb c PyFormat.DQUOTE then
            read (chars, rest) <- string_chars r ;;
            Some (JStr chars, rest)
          else if String.prefix "true" (String c r)
          then Some (JBool true, PyStr.drop 4 (String c r))
          else if String.prefix "false" (String c r)
          then Some (JBool false, PyStr.drop 5 (String c r))
          else if String.prefix "null" (String c r)
          then Some (JNull, PyStr.drop 4 (String c r))
          else number (String c r)
      end
  end
with items (fuel : nat) (s : string) (acc : list json) {struct fuel}
  : option (json * string) :=
  match fuel with
  | O => None
  | S fuel' =>
      read (v, rest) <- value fuel' s ;;
      match skip_ws rest with
      | String c r =>
          if Ascii.eqb c ","%char then items fuel' r (acc ++ [v])
          else if Ascii.eqb c "]"%char then Some (JArr (acc ++ [v]), r)
          else None
      | EmptyString => None
      end
  end
with members (fuel : nat) (s : string) (acc : list (string * json)) {struct fuel}
  : option (json * string) :=
  match fuel with
  | O => None
  | S fuel' =>
      match skip_ws s with
      | String c r =>
          if Ascii.eqb c PyFormat.DQUOTE then
            read (k, rest) <- string_chars r ;;
            read rest <- expect ":"%char (skip_ws rest) ;;
            read (v, rest) <- value fuel' rest ;;
            match skip_ws rest with
            | String c' r' =>
                if Ascii.eqb c' ","%char then members fuel' r' (dict_set k v acc)
                else if Ascii.eqb c' "}"%char then Some (JObj (dict_set k v acc), r')
                else None
            | EmptyString => None
            end
          else None
      | EmptyString => None
      end
  end.

(** [json.loads] on documents made of objects, arrays, strings with the
    simple escapes, integers and the three literals. *)
Definition json_loads (s : string) : option json :=
  read (v, rest) <- value (2 * String.length s + 2) s ;;
  if PyStr.is_empty (skip_ws rest) then Some v else None.

(** A JSON string literal for [s], for [s] without quotes, backslashes or
    control characters. *)
Definition quoted (s : string) : string :=
  String PyFormat.DQUOTE (s ^^ String PyFormat.DQUOTE EmptyString).

End Basic.

(** ** Vocabulary of the properties *)

Section Vocabulary.

Variable strptime : string -> option Z.
Variable json_loads : string -> option json.
Variable PROMPT_INSTRUCTIONS : string.
Variable ENV : string.

(** The review was created at or after the cutoff. *)
Definition in_window (cutoff_date : Z) (review : json) : bool :=
  match create_time strptime review with
  | Some t => (t >=? cutoff_date)%Z
  | None => false
  end.

(** The reviews of a successful answer, none for a failed one. *)
Definition reviews_of (r : response) : list json :=
  match r with
  | Page data => reviews data
  | _ => []
  end.

(** The reviews on the first [n] pages of a feed. *)
Definition fetched_reviews (server : nat -> response) (n : nat) : list json :=
  flat_map (fun i => reviews_of (server i)) (seq 0 n).

(** Number of reviews within the window on one page. *)
Definition in_window_count (cutoff_date : Z) (r : response) : nat :=
  List.length (filter (in_window cutoff_date) (reviews_of r)).

(** Number of reviews within the window on the first [n] pages. *)
Fixpoint in_window_upto (server : nat -> response) (cutoff_date : Z) (n : nat) : nat :=
  match n with
  | O => 0
  | S n' => in_window_upto server cutoff_date n' + in_window_count cutoff_date (server n')
  end.

(** A finite feed served page by page; past its end the platform has
    nothing more. *)
Definition script_of (pages : list page) : nat -> response :=
  fun n => match nth_error pages n with
           | Some data => Page data
           | None => Page (mkPage [] None)
           end.

(** Number of reviews within the window in a finite feed. *)
Definition in_window_total (cutoff_date : Z) (pages : list page) : nat :=
  List.length (filter (in_window cutoff_date) (flat_map reviews pages)).

Definition has_time (review : json) : bool :=
  match create_time strptime review with Some _ => true | None => false end.

(** The answer is a page whose timestamps all parse, that carries a next-page
    token and has at least one review within the window. *)
Definition continues (cutoff_date : Z) (r : response) : bool :=
  match r with
  | Page data =>
      forallb has_time (reviews data)
      && token_present (nextPageToken data)
      && (0 <? in_window_count cutoff_date r)
  | _ => false
  end.

(** The batches of a review list, in order. *)
Definition batches (reviews : list json) (step : nat) : list (list json) :=
  map (fun i => slice reviews i (i + step))
      (py_range (List.length reviews) 0 (List.length reviews) step).

(** The drafts one answer adds to [all_replies]. *)
Definition contributed (answer : completion) : list json :=
  match batch_replies json_loads answer with
  | Some replies => replies
  | None => []
  end.

(** The drafts the first [n] answers add, in order. *)
Definition contributed_upto (answers : nat -> completion) (n : nat) : list json :=
  flat_map (fun k => contributed (answers k)) (seq 0 n).

(** A review whose prompt line can be assembled: an object whose
    [reviewer], when present, is an object. *)
Definition promptable (review : json) : bool :=
  match review with
  | JObj d =>
      match Py.dict_get "reviewer" d with
      | Some (JObj _) | None => true
      | Some _ => false
      end
  | _ => false
  end.

(** The prompt of a batch of promptable reviews. *)
Definition prompt_text (i : nat) (batch : list json) : string :=
  match build_prompt PROMPT_INSTRUCTIONS i batch with
  | Return prompt => prompt
  | _ => EmptyString
  end.

(** The completion requests for the batches at the given offsets. *)
Definition completion_requests (reviews : list json) (step : nat) : list event :=
  map (fun i => ChatCompletion (prompt_text i (slice reviews i (i + step))))
      (py_range (List.length reviews) 0 (List.length reviews) step).

(** The [review_id] of a draft and the [reviewId] of a review. *)
Definition draft_review_id (draft : json) : option json :=
  match draft with
  | JObj d => Py.dict_get "review_id" d
  | _ => None
  end.

Definition review_id_of (review : json) : option json :=
  match review with
  | JObj d => Py.dict_get "reviewId" d
  | _ => None
  end.

(** The contract the specification puts on the drafts of one batch. *)
Definition within_contract (batch drafts : list json) : Prop :=
  drafts = []
  \/ (List.length drafts <= List.length batch
      /\ NoDup (map draft_review_id drafts)
      /\ forall d, In d drafts ->
           exists r, In r batch /\ review_id_of r = draft_review_id d).

Definition is_put (ev : event) : bool :=
  match ev with
  | PutReply _ _ => true
  | _ => false
  end.

(** The publish attempts of a trace. *)
Definition publish_attempts (trace : list event) : list event :=
  filter is_put trace.

(** The publish request for a review and the draft paired with it. *)
Definition attempt_of (account_id location_id : string) (pair : json * json)
  : outcome event :=
  review_id <- Py.subscript (fst pair) "reviewId" ;;
  reply_text <- Py.subscript (snd pair) "reply_text" ;;
  Return (PutReply (reply_url account_id location_id review_id) reply_text).

Definition publishable (pair : json * json) : bool :=
  match attempt_of EmptyString EmptyString pair with
  | Return _ => true
  | _ => false
  end.

(** The publish requests of a list of pairs, in order. *)
Definition pair_requests (account_id location_id : string)
    (pairs : list (json * json)) : list event :=
  flat_map (fun pair =>
              match attempt_of account_id location_id pair with
              | Return ev => [ev]
              | _ => []
              end) pairs.

(** The review has no reply: [reviewReply] is absent, null or empty. *)
Definition no_reply (review : json) : bool :=
  match review with
  | JObj d => negb (Py.truthy_opt (Py.dict_get "reviewReply" d))
  | _ => false
  end.

(** The text of the comment of a review, when it has one. *)
Definition comment_text (review : json) : option string :=
  match review with
  | JObj d =>
      match Py.dict_get "comment" d with
      | Some (JStr s) => Some s
      | _ => None
      end
  | _ => None
  end.

(** Every character of the string is whitespace. *)
Definition blank (s : string) : bool :=
  forallb PyStr.is_space (list_ascii_of_string s).

(** No existing reply, and a comment with a character that is not
    whitespace. *)
Definition eligible (review : json) : bool :=
  no_reply review
  && match comment_text review with
     | Some s => negb (blank s)
     | None => false
     end.

(** An object whose [comment], when present, is a string. *)
Definition well_formed (review : json) : bool :=
  match review with
  | JObj d =>
      match Py.dict_get "comment" d with
      | Some (JStr _) | None => true
      | Some _ => false
      end
  | _ => false
  end.

(** The review is the subject of the request: one of the reviews a prompt
    enumerates, or the review a reply is put to. *)
Definition concerns_only (account_id location_id : string)
    (allowed : list json) (ev : event) : Prop :=
  match ev with
  | GetReviews _ _ => False
  | ChatCompletion prompt =>
      exists i batch,
        build_prompt PROMPT_INSTRUCTIONS i batch = Return prompt
        /\ incl batch allowed
  | PutReply url _ =>
      exists review review_id,
        In review allowed
        /\ Py.subscript review "reviewId" = Return review_id
        /\ url = reply_url account_id location_id review_id
  end.

(** The request gets past the HTTPS redirect, the preflight answer and the
    check of the two identifiers. *)
Definition passes_gates (req : request) : bool :=
  negb (String.eqb ENV "development"
        && negb (String.eqb (or_default (forwarded_proto req) "http") "https"))
  && negb (String.eqb (method req) "OPTIONS")
  && negb (arg_missing (arg_account_id req) || arg_missing (arg_location_id req)).

End Vocabulary.

(** ** Concrete reviews, answers and networks *)

Module Sample.

Definition review (id name rating comment created : string) : json :=
  JObj [("reviewId", JStr id);
        ("reviewer", JObj [("displayName", JStr name)]);
        ("starRating", JStr rating);
        ("comment", JStr comment);
        ("createTime", JStr created)].

Definition jane : json :=
  review "r1" "Jane Doe" "FIVE" "Great food!" "2024-03-01T12:00:00.000000Z".

Definition slow : json :=
  review "r2" "??x99" "ONE" "Slow service" "2024-03-01T18:30:00.250000Z".

Definition old : json :=
  review "r0" "Sam Lee" "FOUR" "Nice place" "2024-02-20T08:15:00.000000Z".

(** The three reviews of the selection example of the specification: an
    empty comment, a review already replied to, and an eligible one. *)
Definition empty_comment : json :=
  JObj [("reviewId", JStr "e1"); ("comment", JStr "")].

Definition replied : json :=
  JObj [("reviewId", JStr "e2"); ("comment", JStr "Great!");
        ("reviewReply", JObj [("comment", JStr "Thank you!")])].

Definition meh : json :=
  JObj [("reviewId", JStr "e3"); ("comment", JStr "Meh")].

Definition numbered (id : string) : json :=
  review id "Guest" "FIVE" ("Visit " ^^ id) "2024-03-01T12:00:00.000000Z".

Definition five_reviews : list json :=
  map numbered ["r1"; "r2"; "r3"; "r4"; "r5"].

(** 2024-03-02T09:00:00 *)
Definition now : Z := Basic.to_microseconds 2024 3 2 9 0 0 0.

Definition draft (id text : string) : json :=
  JObj [("review_id", JStr id); ("reply_text", JStr text)].

(** The JSON text of a draft. *)
Definition draft_json (id text : string) : string :=
  "{" ^^ Basic.quoted "review_id" ^^ ": " ^^ Basic.quoted id ^^ ", "
      ^^ Basic.quoted "reply_text" ^^ ": " ^^ Basic.quoted text ^^ "}".

Definition array_json (elements : list string) : string :=
  "[" ^^ PyFormat.join ", " elements ^^ "]".

Definition two_drafts : string :=
  array_json [draft_json "r2" "Sorry for the wait"; draft_json "r1" "Thank you Jane"].

Definition five_drafts : string :=
  array_json (map (fun id => draft_json id ("Thank you " ^^ id))
                  ["r1"; "r2"; "r3"; "r4"; "r5"]).

(** Two drafts that name the same review, one the batch does not hold. *)
Definition repeated_drafts : string :=
  array_json [draft_json "zzz" "Thanks"; draft_json "zzz" "Thanks again"].

Definition not_json : string := "Sorry, I cannot help with that.".

(** A fenced answer without a language tag, and one with the tag. *)
Definition fenced_content : string := array_json [draft_json "r1" "Thank you Jane"].

Definition bare_fence : string :=
  "```" ^^ PyFormat.NL ^^ fenced_content ^^ PyFormat.NL ^^ "```".

Definition json_fence : string :=
  "```json" ^^ PyFormat.NL ^^ fenced_content ^^ PyFormat.NL ^^ "```".

(** A feed whose only page holds the given reviews. *)
Definition one_page (l : list json) : nat -> response :=
  fun n => match n with
           | O => Page (mkPage l None)
           | S _ => HttpError 400
           end.

(** A feed of one recent review, then one old review, then nothing. *)
Definition long_feed : nat -> response :=
  fun n => match n with
           | 0 => Page (mkPage [jane] (Some "page-2"))
           | 1 => Page (mkPage [old] (Some "page-3"))
           | _ => Page (mkPage [] None)
           end.

Definition answer_once (text : string) : nat -> completion :=
  fun k => match k with
           | O => Content text
           | S _ => ApiError
           end.

(** Every publish succeeds but the one numbered [j]. *)
Definition fails_at (j : nat) : nat -> bool := fun k => negb (k =? j).

Definition always : nat -> bool := fun _ => true.

Definition get_request (days : option string) : request :=
  mkRequest "GET" (Some "https") "example.com" "/" EmptyString
            (Some "123") (Some "456") days.

(** One page with two recent reviews and an old one. *)
Definition recent_feed : nat -> response := one_page [slow; jane; old].

(** The generation service answers with a draft for each recent review. *)
Definition happy_net : network :=
  mkNetwork recent_feed (answer_once two_drafts) always.

(** The generation service answers with prose. *)
Definition prose_net : network :=
  mkNetwork (one_page [jane]) (answer_once not_json) always.

(** Five drafts for five reviews, and the publish numbered [j] fails. *)
Definition failing_net (j : nat) : network :=
  mkNetwork (one_page []) (answer_once five_drafts) (fails_at j).

Definition five_replies : list json :=
  map (fun id => draft id ("Thank you " ^^ id)) ["r1"; "r2"; "r3"; "r4"; "r5"].

(** Nothing to fetch. *)
Definition quiet_net : network :=
  mkNetwork (one_page [old]) (answer_once not_json) always.

(** One day before [now]. *)
Definition cutoff : Z := (now - 1 * Clock.US_PER_DAY)%Z.

(** The handler in production with the basic library instances. *)
Definition handle (net : network) (req : request)
  : option http_response * list event :=
  reply_reviews Basic.strptime Basic.json_loads Basic.py_int EmptyString
                "production" 5 net now req.

(** The orchestrator with the basic library instances. *)
Definition orchestrate (net : network) (l : list json) : outcome unit * list event :=
  reply_to_unreplied_reviews Basic.json_loads EmptyString net l "123" "456".

End Sample.

(** ** Vocabulary of the further properties *)

Section FurtherVocabulary.

Variable strptime : string -> option Z.

(** The page token the [n]-th request carries: none for the first, then the
    [nextPageToken] of the page before. *)
Definition request_token (server : nat -> response) (n : nat) : option string :=
  match n with
  | O => None
  | S m =>
      match server m with
      | Page data => nextPageToken data
      | _ => None
      end
  end.

(** The requests for the first [n] pages of a feed. *)
Definition page_requests (server : nat -> response) (url : string) (n : nat)
  : list event :=
  map (fun i => GetReviews url (request_token server i)) (seq 0 n).

(** The answer is a page whose timestamps all parse and that ends the loop:
    it has no next-page token or no review within the window. *)
Definition stops (cutoff_date : Z) (r : response) : bool :=
  match r with
  | Page data =>
      forallb (has_time strptime) (reviews data)
      && negb (continues strptime cutoff_date r)
  | _ => false
  end.

(** The answer makes the loop raise: a failed request, or a page with a
    review whose timestamp is missing or does not parse. *)
Definition aborts (r : response) : bool :=
  match r with
  | Page data => negb (forallb (has_time strptime) (reviews data))
  | _ => true
  end.

(** The review makes the selection raise: it is not an object, or it has no
    reply and a comment that is not a string. *)
Definition breaks_selection (review : json) : bool :=
  match review with
  | JObj d => no_reply review && negb (well_formed review)
  | _ => true
  end.

(** Number of batches of [n] reviews taken [step] at a time. *)
Definition batch_count (n step : nat) : nat := (n + step - 1) / step.

Definition is_completion (ev : event) : bool :=
  match ev with
  | ChatCompletion _ => true
  | _ => false
  end.

End FurtherVocabulary.

(** ** Further concrete reviews and networks *)

Module MoreSample.

(** A review whose [reviewer] is not an object. *)
Definition odd_review : json :=
  JObj [("reviewId", JStr "r9"); ("reviewer", JStr "anonymous");
        ("comment", JStr "Fine")].

(** A review without a [reviewId]. *)
Definition nameless : json := JObj [("comment", JStr "No id")].

(** A review whose comment is null. *)
Definition null_comment : json :=
  JObj [("reviewId", JStr "r8"); ("comment", JNull)].

(** A feed whose second request fails. *)
Definition broken_feed : nat -> response :=
  fun n => match n with
           | O => Page (mkPage [Sample.jane] (Some "page-2"))
           | S _ => HttpError 503
           end.

Definition broken_net : network :=
  mkNetwork broken_feed (Sample.answer_once Sample.two_drafts) Sample.always.

(** Five recent reviews, five drafts, and the second publish fails. *)
Definition partial_net : network :=
  mkNetwork (Sample.one_page Sample.five_reviews)
            (Sample.answer_once Sample.five_drafts) (Sample.fails_at 1).

(** A feed of two pages. *)
Definition two_pages : list page :=
  [mkPage [Sample.jane] (Some "page-2"); mkPage [Sample.old] None].

Definition finite_net : network :=
  mkNetwork (script_of two_pages) (Sample.answer_once Sample.not_json) Sample.always.

Definition instructions : string := "Reply kindly to each review.".

(** Eleven eligible reviews: a batch of ten and a batch of one. *)
Definition eleven_reviews : list json :=
  map Sample.numbered
      ["r1"; "r2"; "r3"; "r4"; "r5"; "r6"; "r7"; "r8"; "r9"; "r10"; "r11"].

(** The first batch is answered with prose, the second with the draft for
    its only review. *)
Definition second_batch_only : nat -> completion :=
  fun k => match k with
           | 0 => Content Sample.not_json
           | 1 => Content (Sample.array_json [Sample.draft_json "r11" "Thank you r11"])
           | _ => ApiError
           end.

Definition shifted_net : network :=
  mkNetwork (Sample.one_page []) second_batch_only Sample.always.

End MoreSample.

(** ** Properties *)

(** *** Strings *)

Lemma startswith_append (p s : string) : PyStr.startswith p (p ^^ s) = true.
Proof.
  unfold PyStr.startswith.
  induction p as [|c p IH]; simpl.
  - destruct s; reflexivity.
  - destruct (ascii_dec c c) as [_|ne]; [exact IH | congruence].
Qed.

Lemma with_prefix_idempotent (p s : string) :
  with_prefix p (with_prefix p s) = with_prefix p s.
Proof.
  unfold with_prefix at 2 3.
  destruct (PyStr.startswith p s) eqn:E.
  - unfold with_prefix. now rewrite E.
  - unfold with_prefix. now rewrite startswith_append.
Qed.

(** *** Identifier normalization *)

(** C10.  Normalizing an identifier adds the prefix exactly when it is
    absent, normalizing twice is normalizing once, and both URLs are the
    same for identifiers passed bare or already normalized. *)
Theorem C10_normalization_idempotent :
  forall (account_id location_id : string) (review_id : json),
    normalize_account account_id
      = (if PyStr.startswith "accounts/" account_id
         then account_id else "accounts/" ^^ account_id)
    /\ normalize_location location_id
      = (if PyStr.startswith "locations/" location_id
         then location_id else "locations/" ^^ location_id)
    /\ normalize_account (normalize_account account_id) = normalize_account account_id
    /\ normalize_location (normalize_location location_id)
       = normalize_location location_id
    /\ reviews_url (normalize_account account_id) (normalize_location location_id)
       = reviews_url account_id location_id
    /\ reply_url (normalize_account account_id) (normalize_location location_id) review_id
       = reply_url account_id location_id review_id.
Proof.
  intros a l rid.
  assert (Ha : normalize_account (normalize_account a) = normalize_account a)
    by apply with_prefix_idempotent.
  assert (Hl : normalize_location (normalize_location l) = normalize_location l)
    by apply with_prefix_idempotent.
  repeat split; try reflexivity; try assumption.
  - unfold reviews_url. now rewrite Ha, Hl.
  - unfold reply_url. now rewrite Ha, Hl.
Qed.

(** *** Fetching *)

Section FetchProperties.

Variable strptime : string -> option Z.

Local Abbreviation in_window := (in_window strptime).
Local Abbreviation has_time := (has_time strptime).
Local Abbreviation filter_reviews := (filter_reviews strptime).
Local Abbreviation fetch_loop := (fetch_loop strptime).
Local Abbreviation fetch_gmb_reviews := (fetch_gmb_reviews strptime).
Local Abbreviation continues := (continues strptime).
Local Abbreviation in_window_count := (in_window_count strptime).
Local Abbreviation in_window_upto := (in_window_upto strptime).
Local Abbreviation in_window_total := (in_window_total strptime).

Lemma filter_reviews_some (cutoff_date : Z) (l kept : list json) :
  filter_reviews cutoff_date l = Some kept ->
  kept = filter (in_window cutoff_date) l /\ forallb has_time l = true.
Proof.
  revert kept.
  induction l as [|r l IH]; simpl; intros kept H.
  - now inversion H.
  - unfold in_window, has_time.
    destruct (create_time strptime r) as [t|] eqn:Et; [|discriminate].
    destruct (filter_reviews cutoff_date l) as [kept'|]; [|discriminate].
    destruct (IH kept' eq_refl) as [-> Hall].
    inversion H; subst; clear H.
    split; [|exact Hall].
    now destruct (t >=? cutoff_date)%Z.
Qed.

Lemma filter_reviews_none (cutoff_date : Z) (l : list json) :
  filter_reviews cutoff_date l = None -> forallb has_time l = false.
Proof.
  induction l as [|r l IH]; simpl; intros H; [discriminate|].
  unfold has_time.
  destruct (create_time strptime r) as [t|]; [|reflexivity].
  destruct (filter_reviews cutoff_date l); [discriminate|].
  simpl. now apply IH.
Qed.

Lemma in_window_has_time (cutoff_date : Z) (r : json) :
  in_window cutoff_date r = true ->
  exists t, create_time strptime r = Some t /\ (t >= cutoff_date)%Z.
Proof.
  unfold in_window.
  destruct (create_time strptime r) as [t|]; [|discriminate].
  intros H. exists t. split; [reflexivity|]. lia.
Qed.

Lemma minus_days_return (now days cutoff_date : Z) :
  Clock.minus_days now days = Return cutoff_date ->
  cutoff_date = (now - days * Clock.US_PER_DAY)%Z.
Proof.
  unfold Clock.minus_days.
  destruct (Z.abs days >? Clock.MAX_DELTA_DAYS)%Z; [discriminate|].
  destruct ((0 <=? now - days * Clock.US_PER_DAY)
            && (now - days * Clock.US_PER_DAY <=? Clock.MAX_US))%Z;
    [|discriminate].
  now inversion 1.
Qed.

(** What the loop returns is what it had, followed by the in-window reviews
    of the pages it requested. *)
Lemma fetch_loop_returns (server : nat -> response) (url : string) (cutoff_date : Z) :
  forall fuel n tok acc result trace,
    fetch_loop fuel server url cutoff_date n tok acc = (Return result, trace) ->
    result = acc ++ filter (in_window cutoff_date)
                      (flat_map (fun i => reviews_of (server i))
                                (seq n (List.length trace))).
Proof.
  induction fuel as [|fuel IH]; simpl; intros n tok acc result trace H;
    [discriminate|].
  destruct (server n) as [st| |data] eqn:Es; try discriminate.
  destruct (filter_reviews cutoff_date (reviews data)) as [kept|] eqn:Ef;
    [|discriminate].
  apply filter_reviews_some in Ef as [-> _].
  destruct (negb (token_present (nextPageToken data))
            || match filter (in_window cutoff_date) (reviews data) with
               | [] => true | _ :: _ => false end).
  - inversion H; subst; clear H. simpl.
    now rewrite Es, app_nil_r.
  - destruct (fetch_loop fuel server url cutoff_date (S n) (nextPageToken data)
               (acc ++ filter (in_window cutoff_date) (reviews data)))
      as [o evs] eqn:Er.
    inversion H; subst; clear H.
    apply IH in Er. rewrite Er. simpl.
    now rewrite Es, filter_app, app_assoc.
Qed.

(** C3.  The list [fetch_gmb_reviews] returns is exactly the reviews of the
    pages it fetched that were created at or after [now - days]: every
    returned review is one of them, and none created before the cutoff is
    returned. *)
Theorem C3_fetch_returns_window :
  forall fuel server now account_id location_id days result trace,
    fetch_gmb_reviews fuel server now account_id location_id days
      = (Return result, trace) ->
    let cutoff_date := (now - days * Clock.US_PER_DAY)%Z in
    let fetched := fetched_reviews server (List.length trace) in
    result = filter (in_window cutoff_date) fetched
    /\ (forall r, In r result ->
          In r fetched
          /\ exists t, create_time strptime r = Some t /\ (t >= cutoff_date)%Z)
    /\ (forall r t, In r fetched -> create_time strptime r = Some t ->
          (t >= cutoff_date)%Z -> In r result)
    /\ (forall r t, In r fetched -> create_time strptime r = Some t ->
          (t < cutoff_date)%Z -> ~ In r result).
Proof.
  intros fuel server now a l days result trace H cutoff_date fetched.
  unfold fetch_gmb_reviews in H.
  destruct (PyStr.is_empty a || PyStr.is_empty l); [discriminate|].
  destruct (Clock.minus_days now days) as [c| |] eqn:Ec; try discriminate.
  apply minus_days_return in Ec. fold cutoff_date in Ec. subst c.
  apply fetch_loop_returns in H. simpl in H. fold (fetched_reviews server (List.length trace)) in H.
  fold fetched in H.
  assert (Hin : forall r, In r result <-> In r fetched /\ in_window cutoff_date r = true).
  { intros r. rewrite H. apply filter_In. }
  split; [exact H|].
  split; [|split].
  - intros r Hr. apply Hin in Hr as [Hf Hw].
    split; [exact Hf|]. now apply in_window_has_time.
  - intros r t Hf Ht Hge. apply Hin. split; [exact Hf|].
    unfold in_window. rewrite Ht. apply Z.geb_le. lia.
  - intros r t Hf Ht Hlt Hr. apply Hin in Hr as [_ Hw].
    apply in_window_has_time in Hw as (t' & Ht' & Hge).
    rewrite Ht in Ht'. inversion Ht'. lia.
Qed.

(** One more page is requested exactly after an answer that [continues]. *)
Lemma fetch_loop_running (server : nat -> response) (url : string) (cutoff_date : Z) :
  forall fuel n tok acc,
    fst (fetch_loop fuel server url cutoff_date n tok acc) = Running
    <-> forall i, i < fuel -> continues cutoff_date (server (n + i)) = true.
Proof.
  induction fuel as [|fuel IH]; intros n tok acc; simpl.
  - split; [intros _ i Hi; lia | reflexivity].
  - assert (Hzero : forall P : nat -> Prop,
               (forall i, i < S fuel -> P (n + i))
               <-> P n /\ forall i, i < fuel -> P (S n + i)).
    { intros P. split.
      - intros Hall. split.
        + replace n with (n + 0) by lia. apply Hall. lia.
        + intros i Hi. replace (S n + i) with (n + S i) by lia. apply Hall. lia.
      - intros [H0 Hs] [|i] Hi.
        + now replace (n + 0) with n by lia.
        + replace (n + S i) with (S n + i) by lia. apply Hs. lia. }
    rewrite (Hzero (fun j => continues cutoff_date (server j) = true)).
    unfold continues at 1, in_window_count.
    destruct (server n) as [st| |data] eqn:Es; simpl.
    + split; [discriminate | intros [? _]; discriminate].
    + split; [discriminate | intros [? _]; discriminate].
    + destruct (filter_reviews cutoff_date (reviews data)) as [kept|] eqn:Ef.
      * apply filter_reviews_some in Ef as [-> Hall]. rewrite Hall. simpl.
        destruct (token_present (nextPageToken data)); simpl.
        -- destruct (filter (in_window cutoff_date) (reviews data)) as [|r kept] eqn:Ek;
             simpl.
           ++ split; [discriminate | intros [? _]; discriminate].
           ++ destruct (fetch_loop fuel server url cutoff_date (S n)
                          (nextPageToken data) (acc ++ r :: kept)) as [o evs] eqn:Er.
              simpl. specialize (IH (S n) (nextPageToken data) (acc ++ r :: kept)).
              rewrite Er in IH. simpl in IH. rewrite IH. tauto.
        -- split; [discriminate | intros [? _]; discriminate].
      * apply filter_reviews_none in Ef. rewrite Ef. simpl.
        split; [discriminate | intros [? _]; discriminate].
Qed.

(** A run that is over made one request per page up to the first answer
    that does not continue. *)
Lemma fetch_loop_requests (server : nat -> response) (url : string) (cutoff_date : Z) :
  forall m fuel n tok acc,
    (forall i, i < m -> continues cutoff_date (server (n + i)) = true) ->
    continues cutoff_date (server (n + m)) = false ->
    m < fuel ->
    List.length (snd (fetch_loop fuel server url cutoff_date n tok acc)) = S m.
Proof.
  induction m as [|m IH]; intros fuel n tok acc Hbefore Hstop Hfuel;
    (destruct fuel as [|fuel]; [lia|]); simpl.
  - replace (n + 0) with n in Hstop by lia.
    unfold continues, in_window_count in Hstop.
    destruct (server n) as [st| |data] eqn:Es; simpl in *; try reflexivity.
    destruct (filter_reviews cutoff_date (reviews data)) as [kept|] eqn:Ef;
      [|reflexivity].
    apply filter_reviews_some in Ef as [-> Hall]. rewrite Hall in Hstop.
    simpl in Hstop.
    destruct (token_present (nextPageToken data)); simpl in *; [|reflexivity].
    destruct (filter (in_window cutoff_date) (reviews data)); simpl in *;
      [reflexivity | discriminate].
  - assert (H0 : continues cutoff_date (server n) = true).
    { replace n with (n + 0) by lia. apply Hbefore. lia. }
    unfold continues, in_window_count in H0.
    destruct (server n) as [st| |data] eqn:Es; simpl in *; try discriminate.
    apply andb_prop in H0 as [H0 Hcount]. apply andb_prop in H0 as [Hall Htok].
    destruct (filter_reviews cutoff_date (reviews data)) as [kept|] eqn:Ef.
    + apply filter_reviews_some in Ef as [-> _]. rewrite Htok. simpl.
      destruct (filter (in_window cutoff_date) (reviews data)) as [|r kept] eqn:Ek;
        [simpl in Hcount; discriminate|].
      destruct (fetch_loop fuel server url cutoff_date (S n)
                  (nextPageToken data) (acc ++ r :: kept)) as [o evs] eqn:Er.
      simpl. f_equal.
      specialize (IH fuel (S n) (nextPageToken data) (acc ++ r :: kept)).
      rewrite Er in IH. cbn [snd] in IH. apply IH.
      * intros i Hi. replace (S n + i) with (n + S i) by lia. apply Hbefore. lia.
      * now replace (S n + m) with (n + S m) by lia.
      * lia.
    + apply filter_reviews_none in Ef. congruence.
Qed.

(** Every page that continues holds a review within the window. *)
Lemma in_window_upto_continues (server : nat -> response) (cutoff_date : Z) :
  forall m,
    (forall i, i < m -> continues cutoff_date (server i) = true) ->
    m <= in_window_upto server cutoff_date m.
Proof.
  induction m as [|m IH]; intros Hall; simpl; [lia|].
  assert (Hm : continues cutoff_date (server m) = true) by (apply Hall; lia).
  assert (1 <= in_window_count cutoff_date (server m)).
  { unfold continues in Hm.
    destruct (server m); try discriminate.
    apply andb_prop in Hm as [_ Hm]. now apply Nat.ltb_lt in Hm. }
  assert (m <= in_window_upto server cutoff_date m) by (apply IH; intros; apply Hall; lia).
  lia.
Qed.

(** The first answer that does not continue, when there is one among the
    first [k]. *)
Lemma first_stop (server : nat -> response) (cutoff_date : Z) :
  forall k,
    (forall i, i < k -> continues cutoff_date (server i) = true)
    \/ exists m, m < k
         /\ continues cutoff_date (server m) = false
         /\ forall i, i < m -> continues cutoff_date (server i) = true.
Proof.
  induction k as [|k [Hall | (m & Hm & Hstop & Hbefore)]].
  - left. intros i Hi. lia.
  - destruct (continues cutoff_date (server k)) eqn:Ek.
    + left. intros i Hi.
      destruct (Nat.eq_dec i k) as [->|]; [exact Ek | apply Hall; lia].
    + right. exists k. repeat split; [lia | exact Ek | exact Hall].
  - right. exists m. repeat split; [lia | exact Hstop | exact Hbefore].
Qed.

(** On a feed with at most [K] reviews within the window the loop is over
    after at most [K + 1] requests. *)
Lemma fetch_loop_bounded (server : nat -> response) (url : string) (cutoff_date : Z)
    (K : nat) :
  (forall n, in_window_upto server cutoff_date n <= K) ->
  exists n, n <= K + 1
    /\ forall fuel, n <= fuel ->
         fst (fetch_loop fuel server url cutoff_date 0 None []) <> Running
         /\ List.length (snd (fetch_loop fuel server url cutoff_date 0 None [])) = n.
Proof.
  intros Hbound.
  destruct (first_stop server cutoff_date (S K)) as [Hall | (m & Hm & Hstop & Hbefore)].
  - apply in_window_upto_continues in Hall. specialize (Hbound (S K)). lia.
  - exists (S m). split; [lia|].
    intros fuel Hfuel. split.
    + intros Hrun.
      pose proof (proj1 (fetch_loop_running server url cutoff_date fuel 0 None [])
                    Hrun m) as Hgo.
      simpl in Hgo. rewrite Hgo in Hstop; [discriminate | lia].
    + apply fetch_loop_requests; [exact Hbefore | exact Hstop | lia].
Qed.

Lemma firstn_succ {A : Type} (l : list A) :
  forall n,
    firstn (S n) l
    = firstn n l ++ match nth_error l n with Some x => [x] | None => [] end.
Proof.
  induction l as [|x l IH]; intros [|n]; try reflexivity.
  change (x :: firstn (S n) l = x :: (firstn n l ++
            match nth_error l n with Some y => [y] | None => [] end)).
  now rewrite IH.
Qed.

Lemma in_window_upto_fetched (server : nat -> response) (cutoff_date : Z) :
  forall n,
    in_window_upto server cutoff_date n
    = List.length (filter (in_window cutoff_date) (fetched_reviews server n)).
Proof.
  unfold fetched_reviews.
  induction n as [|n IH]; [reflexivity|].
  rewrite seq_S, flat_map_app, filter_app, length_app. simpl.
  rewrite IH, app_nil_r. reflexivity.
Qed.

Lemma fetched_script (pages : list page) :
  forall n, fetched_reviews (script_of pages) n = flat_map reviews (firstn n pages).
Proof.
  unfold fetched_reviews.
  induction n as [|n IH]; [reflexivity|].
  rewrite seq_S, flat_map_app, IH, firstn_succ, flat_map_app. simpl.
  unfold script_of. destruct (nth_error pages n); simpl; now rewrite ?app_nil_r.
Qed.

(** A finite feed never shows more reviews within the window than it has. *)
Lemma in_window_upto_script (pages : list page) (cutoff_date : Z) :
  forall n,
    in_window_upto (script_of pages) cutoff_date n <= in_window_total cutoff_date pages.
Proof.
  intros n. rewrite in_window_upto_fetched, fetched_script.
  unfold in_window_total.
  rewrite <- (firstn_skipn n pages) at 2.
  rewrite flat_map_app, filter_app, length_app. lia.
Qed.

(** C4.  The loop goes on to another page exactly while every answer so far
    is a page with a next-page token and at least one review within the
    window; so on a feed with at most [K] reviews within the window it is
    over after at most [K + 1] requests, and on every finite feed, however
    long, after at most one request more than it has reviews within the
    window. *)
Theorem C4_pagination_terminates :
  forall (server : nat -> response) (url : string) (cutoff_date : Z),
    (forall fuel,
        fst (fetch_loop fuel server url cutoff_date 0 None []) = Running
        <-> forall i, i < fuel -> continues cutoff_date (server i) = true)
    /\ (forall K,
        (forall n, in_window_upto server cutoff_date n <= K) ->
        exists n, n <= K + 1
          /\ forall fuel, n <= fuel ->
               fst (fetch_loop fuel server url cutoff_date 0 None []) <> Running
               /\ List.length (snd (fetch_loop fuel server url cutoff_date 0 None [])) = n)
    /\ forall pages : list page,
        exists n, n <= in_window_total cutoff_date pages + 1
          /\ forall fuel, n <= fuel ->
               fst (fetch_loop fuel (script_of pages) url cutoff_date 0 None [])
                 <> Running
               /\ List.length
                    (snd (fetch_loop fuel (script_of pages) url cutoff_date 0 None []))
                  = n.
Proof.
  intros server url cutoff_date. split; [|split].
  - intros fuel. apply (fetch_loop_running server url cutoff_date fuel 0 None []).
  - intros K Hbound. now apply fetch_loop_bounded.
  - intros pages. apply fetch_loop_bounded. apply in_window_upto_script.
Qed.

End FetchProperties.

(** *** Generating *)

Section GenerateProperties.

Variable json_loads : string -> option json.
Variable PROMPT_INSTRUCTIONS : string.

Local Abbreviation batch_replies := (batch_replies json_loads).
Local Abbreviation contributed := (contributed json_loads).
Local Abbreviation contributed_upto := (contributed_upto json_loads).
Local Abbreviation build_prompt := (build_prompt PROMPT_INSTRUCTIONS).
Local Abbreviation prompt_text := (prompt_text PROMPT_INSTRUCTIONS).
Local Abbreviation completion_requests := (completion_requests PROMPT_INSTRUCTIONS).
Local Abbreviation generate_loop := (generate_loop json_loads PROMPT_INSTRUCTIONS).
Local Abbreviation generate_review_replies_batch :=
  (generate_review_replies_batch json_loads PROMPT_INSTRUCTIONS).

Lemma prompt_line_returns (i j : nat) (review : json) :
  promptable review = true -> exists line, prompt_line i j review = Return line.
Proof.
  unfold promptable, prompt_line.
  destruct review as [| | | | |d]; try discriminate.
  simpl. destruct (Py.dict_get "reviewer" d) as [[| | | | |d']|];
    try discriminate; intros _; simpl; eexists; reflexivity.
Qed.

Lemma prompt_lines_returns (i : nat) (batch : list json) :
  forallb promptable batch = true ->
  forall j prompt, exists text, prompt_lines i j batch prompt = Return text.
Proof.
  induction batch as [|r batch IH]; simpl; intros H j prompt.
  - eexists; reflexivity.
  - apply andb_prop in H as [Hr Hrest].
    destruct (prompt_line_returns i j r Hr) as [line ->]. simpl.
    apply IH, Hrest.
Qed.

Lemma build_prompt_returns (i : nat) (batch : list json) :
  forallb promptable batch = true ->
  build_prompt i batch = Return (prompt_text i batch).
Proof.
  intros H. unfold prompt_text.
  destruct (prompt_lines_returns i batch H 1 PROMPT_INSTRUCTIONS) as [text Ht].
  unfold build_prompt. now rewrite Ht.
Qed.

Lemma slice_incl {A : Type} (l : list A) (i j : nat) : incl (slice l i j) l.
Proof.
  intros x Hx. unfold slice in Hx.
  rewrite <- (firstn_skipn i l). apply in_or_app. right.
  rewrite <- (firstn_skipn (j - i) (skipn i l)). apply in_or_app. now left.
Qed.

Lemma slice_promptable (reviews : list json) (i j : nat) :
  forallb promptable reviews = true ->
  forallb promptable (slice reviews i j) = true.
Proof.
  rewrite !forallb_forall. intros H r Hr. apply H.
  now apply (slice_incl reviews i j).
Qed.

Lemma slice_length {A : Type} (l : list A) (i step : nat) :
  List.length (slice l i (i + step)) <= step.
Proof.
  unfold slice. replace (i + step - i) with step by lia.
  apply firstn_le_length.
Qed.

(** The slices at the offsets of [range(start, len(l), step)] make up [l]
    from [start] on. *)
Lemma py_range_slices {A : Type} (l : list A) (step : nat) :
  0 < step ->
  forall fuel start,
    List.length l - start <= fuel ->
    List.concat (map (fun i => slice l i (i + step))
                (py_range fuel start (List.length l) step))
    = skipn start l.
Proof.
  intros Hstep.
  induction fuel as [|fuel IH]; intros start Hfuel; simpl.
  - symmetry. apply skipn_all2. lia.
  - destruct (start <? List.length l) eqn:E.
    + apply Nat.ltb_lt in E. simpl.
      rewrite IH by lia.
      unfold slice. replace (start + step - start) with step by lia.
      replace (start + step) with (step + start) by lia.
      rewrite <- skipn_skipn. apply firstn_skipn.
    + apply Nat.ltb_ge in E. symmetry. apply skipn_all2. lia.
Qed.

(** The loop over the offsets, for reviews whose prompt lines can all be
    assembled: one request per batch, and the drafts of the answers in
    order. *)
Lemma generate_loop_returns (answers : nat -> completion) (reviews : list json)
    (step : nat) :
  forallb promptable reviews = true ->
  forall offsets k acc,
    generate_loop answers reviews step offsets k acc
    = (Return (acc ++ flat_map (fun j => contributed (answers j))
                               (seq k (List.length offsets))),
       map (fun i => ChatCompletion (prompt_text i (slice reviews i (i + step))))
           offsets).
Proof.
  intros Hp.
  induction offsets as [|i offsets IH]; intros k acc; simpl.
  - now rewrite app_nil_r.
  - rewrite build_prompt_returns by now apply slice_promptable.
    rewrite IH. unfold contributed.
    destruct (batch_replies (answers k)); simpl.
    + now rewrite app_assoc.
    + reflexivity.
Qed.

Lemma generate_returns (answers : nat -> completion) (reviews : list json)
    (batch_size : Z) :
  (0 < batch_size)%Z ->
  forallb promptable reviews = true ->
  generate_review_replies_batch answers reviews batch_size
  = (Return (contributed_upto answers
               (List.length (batches reviews (Z.to_nat batch_size)))),
     completion_requests reviews (Z.to_nat batch_size)).
Proof.
  intros Hpos Hp.
  unfold generate_review_replies_batch.
  destruct (batch_size =? 0)%Z eqn:E0; [apply Z.eqb_eq in E0; lia|].
  destruct (batch_size <? 0)%Z eqn:E1; [apply Z.ltb_lt in E1; lia|].
  rewrite generate_loop_returns by exact Hp.
  unfold contributed_upto, batches, completion_requests.
  now rewrite length_map.
Qed.

(** C8.  For a positive batch size the batches are consecutive slices of at
    most [batch_size] reviews whose concatenation is the input, one request
    is made per batch in order, and the drafts returned are those of the
    answers, batch after batch, each batch's drafts in the order of its
    answer. *)
Theorem C8_batches_partition_in_order :
  forall (answers : nat -> completion) (reviews : list json) (batch_size : Z),
    (0 < batch_size)%Z ->
    let step := Z.to_nat batch_size in
    List.concat (batches reviews step) = reviews
    /\ Forall (fun batch => List.length batch <= step) (batches reviews step)
    /\ (forallb promptable reviews = true ->
        generate_review_replies_batch answers reviews batch_size
        = (Return (contributed_upto answers (List.length (batches reviews step))),
           completion_requests reviews step))
    /\ forall n,
        contributed_upto answers (S n)
        = contributed_upto answers n ++ contributed (answers n).
Proof.
  intros answers reviews batch_size Hpos step.
  assert (Hstep : 0 < step) by (unfold step; lia).
  split; [|split; [|split]].
  - unfold batches. rewrite py_range_slices by lia. reflexivity.
  - unfold batches. apply Forall_forall. intros batch Hb.
    apply in_map_iff in Hb as (i & <- & _). apply slice_length.
  - intros Hp. now apply generate_returns.
  - intros n. unfold contributed_upto.
    rewrite seq_S, flat_map_app. simpl. now rewrite app_nil_r.
Qed.

(** What one answer contributes: nothing, or the whole decoded array, every
    element an object with both keys. *)
Lemma contributed_shape (answer : completion) :
  contributed answer = []
  \/ exists text,
       answer = Content text
       /\ json_loads (json_text text) = Some (JArr (contributed answer))
       /\ forallb valid_reply (contributed answer) = true.
Proof.
  unfold contributed, batch_replies.
  destruct answer as [| |text]; try (left; reflexivity).
  destruct (json_loads (json_text text)) as [parsed|] eqn:Ep; [|left; reflexivity].
  destruct (Py.iterate parsed) as [replies|] eqn:Ei; [|left; reflexivity].
  destruct (forallb valid_reply replies) eqn:Ev; [|left; reflexivity].
  destruct parsed as [| | |s|l|d]; simpl in Ei; try discriminate.
  - inversion Ei; subst; clear Ei.
    destruct s as [|c s]; [left; reflexivity|]. simpl in Ev. discriminate.
  - inversion Ei; subst; clear Ei.
    right. exists text. repeat split; assumption.
  - inversion Ei; subst; clear Ei.
    destruct d as [|[k v] d]; [left; reflexivity|]. simpl in Ev. discriminate.
Qed.

(** C2, as the code has it.  Whatever the answers, the call returns; each
    batch contributes either nothing or all the elements of the decoded
    array, each an object with [review_id] and [reply_text].  Neither their
    number nor their [review_id] is compared with the batch. *)
Theorem C2_batch_drafts_as_answered :
  forall (answers : nat -> completion) (reviews : list json) (batch_size : Z),
    (0 < batch_size)%Z ->
    forallb promptable reviews = true ->
    (exists trace,
        generate_review_replies_batch answers reviews batch_size
        = (Return (contributed_upto answers
                     (List.length (batches reviews (Z.to_nat batch_size)))),
           trace))
    /\ forall k,
        contributed (answers k) = []
        \/ exists text,
             answers k = Content text
             /\ json_loads (json_text text) = Some (JArr (contributed (answers k)))
             /\ forallb valid_reply (contributed (answers k)) = true.
Proof.
  intros answers reviews batch_size Hpos Hp. split.
  - eexists. now apply generate_returns.
  - intros k. apply contributed_shape.
Qed.

End GenerateProperties.

(** *** Selecting and publishing *)

Lemma rstrip_empty (s : string) : PyStr.is_empty (PyStr.rstrip s) = blank s.
Proof.
  unfold blank.
  induction s as [|c s IH]; simpl; [reflexivity|].
  destruct (PyStr.rstrip s) as [|c' r]; simpl in *; rewrite <- IH.
  - destruct (PyStr.is_space c); reflexivity.
  - now rewrite andb_false_r.
Qed.

Lemma lstrip_blank (s : string) : blank (PyStr.lstrip s) = blank s.
Proof.
  unfold blank.
  induction s as [|c s IH]; simpl; [reflexivity|].
  destruct (PyStr.is_space c) eqn:E; simpl.
  - exact IH.
  - now rewrite E.
Qed.

(** [s.strip()] is empty exactly when [s] is all whitespace. *)
Lemma strip_empty (s : string) : PyStr.is_empty (PyStr.strip s) = blank s.
Proof.
  unfold PyStr.strip. now rewrite rstrip_empty, lstrip_blank.
Qed.

Lemma is_unreplied_eligible (r : json) (keep : bool) :
  is_unreplied r = Return keep -> keep = eligible r.
Proof.
  unfold is_unreplied, eligible, no_reply, comment_text.
  destruct r as [| | | | |d]; simpl; try discriminate.
  destruct (Py.truthy_opt (Py.dict_get "reviewReply" d)); simpl.
  - now inversion 1.
  - destruct (Py.dict_get "comment" d) as [[| | |s| |]|]; simpl; try discriminate.
    + inversion 1. now rewrite strip_empty.
    + now inversion 1.
Qed.

Lemma is_unreplied_well_formed (r : json) :
  well_formed r = true -> is_unreplied r = Return (eligible r).
Proof.
  unfold well_formed, is_unreplied, eligible, no_reply, comment_text.
  destruct r as [| | | | |d]; simpl; try discriminate.
  destruct (Py.truthy_opt (Py.dict_get "reviewReply" d)); simpl; [reflexivity|].
  destruct (Py.dict_get "comment" d) as [[| | |s| |]|]; simpl; try discriminate.
  - now rewrite strip_empty.
  - reflexivity.
Qed.

Lemma unreplied_filter (reviews kept : list json) :
  unreplied reviews = Return kept -> kept = filter eligible reviews.
Proof.
  revert kept.
  induction reviews as [|r reviews IH]; simpl; intros kept H.
  - now inversion H.
  - destruct (is_unreplied r) as [keep| |] eqn:Er; simpl in H; try discriminate.
    apply is_unreplied_eligible in Er. subst keep.
    destruct (unreplied reviews) as [kept'| |]; simpl in H; try discriminate.
    inversion H; subst; clear H. simpl.
    now rewrite <- (IH kept' eq_refl).
Qed.

Lemma unreplied_well_formed (reviews : list json) :
  forallb well_formed reviews = true ->
  unreplied reviews = Return (filter eligible reviews).
Proof.
  induction reviews as [|r reviews IH]; simpl; intros H; [reflexivity|].
  apply andb_prop in H as [Hr Hrest].
  rewrite (is_unreplied_well_formed r Hr), (IH Hrest). reflexivity.
Qed.

Lemma attempt_of_publishable (pair : json * json) :
  publishable pair = true ->
  exists review_id reply_text,
    Py.subscript (fst pair) "reviewId" = Return review_id
    /\ Py.subscript (snd pair) "reply_text" = Return reply_text
    /\ forall account_id location_id,
         attempt_of account_id location_id pair
         = Return (PutReply (reply_url account_id location_id review_id) reply_text).
Proof.
  unfold publishable, attempt_of.
  destruct (Py.subscript (fst pair) "reviewId") as [rid| |]; simpl; try discriminate.
  destruct (Py.subscript (snd pair) "reply_text") as [text| |]; simpl; try discriminate.
  intros _. exists rid, text. repeat split.
Qed.

(** One step of the publish loop on a publishable pair. *)
Lemma publish_loop_step (puts : nat -> bool) (account_id location_id : string)
    (k : nat) (pair : json * json) (rest : list (json * json)) (ev : event) :
  attempt_of account_id location_id pair = Return ev ->
  publish_loop puts account_id location_id k (pair :: rest)
  = if puts k
    then (fst (publish_loop puts account_id location_id (S k) rest),
          ev :: snd (publish_loop puts account_id location_id (S k) rest))
    else (Raise (RuntimeError "Failed to post reply"), [ev]).
Proof.
  destruct pair as [review reply]. unfold attempt_of. simpl.
  destruct (Py.subscript review "reviewId") as [rid| |]; simpl; try discriminate.
  destruct (Py.subscript reply "reply_text") as [text| |]; simpl; try discriminate.
  intros H. inversion H; subst; clear H.
  unfold post_review_reply.
  destruct (puts k); [|reflexivity].
  destruct (publish_loop puts account_id location_id (S k) rest) as [o evs].
  reflexivity.
Qed.

Lemma pair_requests_cons (account_id location_id : string)
    (pair : json * json) (rest : list (json * json)) (ev : event) :
  attempt_of account_id location_id pair = Return ev ->
  pair_requests account_id location_id (pair :: rest)
  = ev :: pair_requests account_id location_id rest.
Proof.
  intros H. unfold pair_requests. simpl. now rewrite H.
Qed.

(** When every publish succeeds, every pair is attempted. *)
Lemma publish_loop_all (puts : nat -> bool) (account_id location_id : string) :
  forall pairs k,
    forallb publishable pairs = true ->
    (forall i, i < List.length pairs -> puts (k + i) = true) ->
    publish_loop puts account_id location_id k pairs
    = (Return tt, pair_requests account_id location_id pairs).
Proof.
  induction pairs as [|pair pairs IH]; intros k Hp Hok; [reflexivity|].
  simpl in Hp. apply andb_prop in Hp as [Hpair Hrest].
  destruct (attempt_of_publishable pair Hpair) as (rid & text & _ & _ & Hev).
  rewrite (publish_loop_step _ _ _ _ _ _ _ (Hev account_id location_id)).
  rewrite (pair_requests_cons _ _ _ _ _ (Hev account_id location_id)).
  replace (puts k) with true
    by (symmetry; replace k with (k + 0) by lia; apply Hok; simpl; lia).
  rewrite IH; [reflexivity | exact Hrest |].
  intros i Hi. replace (S k + i) with (k + S i) by lia. apply Hok. simpl. lia.
Qed.

(** The first failing publish ends the loop: the pairs up to it are
    attempted, the later ones are not. *)
Lemma publish_loop_first_failure (puts : nat -> bool) (account_id location_id : string) :
  forall pairs k j,
    forallb publishable pairs = true ->
    j < List.length pairs ->
    (forall i, i < j -> puts (k + i) = true) ->
    puts (k + j) = false ->
    publish_loop puts account_id location_id k pairs
    = (Raise (RuntimeError "Failed to post reply"),
       pair_requests account_id location_id (firstn (S j) pairs)).
Proof.
  induction pairs as [|pair pairs IH]; intros k j Hp Hj Hok Hfail;
    [simpl in Hj; lia|].
  simpl in Hp. apply andb_prop in Hp as [Hpair Hrest].
  destruct (attempt_of_publishable pair Hpair) as (rid & text & _ & _ & Hev).
  rewrite (publish_loop_step _ _ _ _ _ _ _ (Hev account_id location_id)).
  rewrite firstn_cons.
  rewrite (pair_requests_cons _ _ _ _ _ (Hev account_id location_id)).
  destruct j as [|j].
  - replace (k + 0) with k in Hfail by lia. rewrite Hfail. reflexivity.
  - replace (puts k) with true
      by (symmetry; replace k with (k + 0) by lia; apply Hok; lia).
    rewrite (IH (S k) j); [reflexivity | exact Hrest | simpl in Hj; lia | |].
    + intros i Hi. replace (S k + i) with (k + S i) by lia. apply Hok. lia.
    + now replace (S k + j) with (k + S j) by lia.
Qed.

Section OrchestratorProperties.

Variable json_loads : string -> option json.
Variable PROMPT_INSTRUCTIONS : string.

Local Abbreviation build_prompt := (build_prompt PROMPT_INSTRUCTIONS).
Local Abbreviation generate_loop := (generate_loop json_loads PROMPT_INSTRUCTIONS).
Local Abbreviation generate_review_replies_batch :=
  (generate_review_replies_batch json_loads PROMPT_INSTRUCTIONS).
Local Abbreviation reply_to_unreplied_reviews :=
  (reply_to_unreplied_reviews json_loads PROMPT_INSTRUCTIONS).
Local Abbreviation concerns_only := (concerns_only PROMPT_INSTRUCTIONS).

(** Every request of the generation loop is a prompt for a slice of the
    reviews it was given. *)
Lemma generate_loop_concerns (answers : nat -> completion) (reviews : list json)
    (step : nat) (account_id location_id : string) :
  forall offsets k acc,
    Forall (concerns_only account_id location_id reviews)
           (snd (generate_loop answers reviews step offsets k acc)).
Proof.
  induction offsets as [|i offsets IH]; intros k acc; simpl; [constructor|].
  destruct (build_prompt i (slice reviews i (i + step))) as [prompt| |] eqn:Eb;
    simpl; try constructor.
  - specialize (IH (S k)
      match batch_replies json_loads (answers k) with
      | Some replies => acc ++ replies
      | None => acc
      end).
    destruct (generate_loop answers reviews step offsets (S k) _) as [o evs].
    simpl in *. constructor; [|exact IH].
    exists i, (slice reviews i (i + step)). split; [exact Eb | apply slice_incl].
Qed.

Lemma generate_concerns (answers : nat -> completion) (reviews : list json)
    (batch_size : Z) (account_id location_id : string) :
  Forall (concerns_only account_id location_id reviews)
         (snd (generate_review_replies_batch answers reviews batch_size)).
Proof.
  unfold generate_review_replies_batch.
  destruct (batch_size =? 0)%Z; [constructor|].
  destruct (batch_size <? 0)%Z; [constructor|].
  apply generate_loop_concerns.
Qed.

(** Every request of the publish loop puts a reply to the review of one of
    its pairs. *)
Lemma publish_loop_concerns (puts : nat -> bool) (account_id location_id : string)
    (allowed : list json) :
  forall pairs k,
    (forall pair, In pair pairs -> In (fst pair) allowed) ->
    Forall (concerns_only account_id location_id allowed)
           (snd (publish_loop puts account_id location_id k pairs)).
Proof.
  induction pairs as [|[review reply] pairs IH]; intros k Hin; simpl; [constructor|].
  destruct (Py.subscript review "reviewId") as [rid| |] eqn:Er; simpl;
    try constructor.
  destruct (Py.subscript reply "reply_text") as [text| |]; simpl; try constructor.
  assert (Hev : concerns_only account_id location_id allowed
                  (PutReply (reply_url account_id location_id rid) text)).
  { exists review, rid. repeat split; [|exact Er].
    apply (Hin (review, reply)). now left. }
  unfold post_review_reply.
  destruct (puts k); simpl.
  - specialize (IH (S k) (fun pair Hp => Hin pair (or_intror Hp))).
    destruct (publish_loop puts account_id location_id (S k) pairs) as [o evs].
    simpl in *. constructor; assumption.
  - constructor; [exact Hev | constructor].
Qed.

(** The run on a non-empty eligible list once the drafts are there. *)
Lemma reply_to_unreplied_reviews_publishes (net : network) (reviews : list json)
    (account_id location_id : string) (el replies : list json) (evs : list event) :
  unreplied reviews = Return el ->
  el <> [] ->
  generate_review_replies_batch (chat net) el 10 = (Return replies, evs) ->
  reply_to_unreplied_reviews net reviews account_id location_id
  = (fst (publish_loop (put net) account_id location_id 0 (combine el replies)),
     evs ++ snd (publish_loop (put net) account_id location_id 0 (combine el replies))).
Proof.
  intros Hu Hne Hg. unfold reply_to_unreplied_reviews.
  rewrite Hu. destruct el as [|r el]; [congruence|].
  rewrite Hg.
  destruct (publish_loop (put net) account_id location_id 0
              (combine (r :: el) replies)) as [o evs'].
  reflexivity.
Qed.

(** C1, as the code has it.  Publishing goes through the pairs in order and
    ends at the first failure: the pairs up to the failing one are attempted,
    no later pair is, and the error leaves [reply_to_unreplied_reviews].
    When no publish fails every pair is attempted. *)
Theorem C1_publish_stops_at_first_failure :
  forall (net : network) (reviews : list json) (account_id location_id : string)
         (el replies : list json) (evs : list event),
    unreplied reviews = Return el ->
    el <> [] ->
    generate_review_replies_batch (chat net) el 10 = (Return replies, evs) ->
    forallb publishable (combine el replies) = true ->
    (forall j,
        j < List.length (combine el replies) ->
        (forall i, i < j -> put net i = true) ->
        put net j = false ->
        reply_to_unreplied_reviews net reviews account_id location_id
        = (Raise (RuntimeError "Failed to post reply"),
           evs ++ pair_requests account_id location_id
                    (firstn (S j) (combine el replies))))
    /\ ((forall i, i < List.length (combine el replies) -> put net i = true) ->
        reply_to_unreplied_reviews net reviews account_id location_id
        = (Return tt, evs ++ pair_requests account_id location_id (combine el replies))).
Proof.
  intros net reviews a l el replies evs Hu Hne Hg Hp.
  rewrite (reply_to_unreplied_reviews_publishes net reviews a l el replies evs Hu Hne Hg).
  split.
  - intros j Hj Hok Hfail.
    now rewrite (publish_loop_first_failure (put net) a l (combine el replies) 0 j).
  - intros Hok.
    now rewrite (publish_loop_all (put net) a l (combine el replies) 0).
Qed.

End OrchestratorProperties.

(** *** The traces of the three stages *)

Lemma fetch_loop_no_put (strptime : string -> option Z) (server : nat -> response)
    (url : string) (cutoff_date : Z) :
  forall fuel n tok acc,
    publish_attempts (snd (fetch_loop strptime fuel server url cutoff_date n tok acc)) = [].
Proof.
  induction fuel as [|fuel IH]; intros n tok acc; simpl; [reflexivity|].
  destruct (server n) as [st| |data]; try reflexivity.
  destruct (filter_reviews strptime cutoff_date (reviews data)) as [kept|];
    [|reflexivity].
  destruct (negb (token_present (nextPageToken data))
            || match kept with [] => true | _ :: _ => false end); [reflexivity|].
  specialize (IH (S n) (nextPageToken data) (acc ++ kept)).
  destruct (fetch_loop strptime fuel server url cutoff_date (S n)
              (nextPageToken data) (acc ++ kept)) as [o evs].
  exact IH.
Qed.

Lemma fetch_no_put (strptime : string -> option Z) (fuel : nat)
    (server : nat -> response) (now : Z) (account_id location_id : string) (days : Z) :
  publish_attempts
    (snd (fetch_gmb_reviews strptime fuel server now account_id location_id days)) = [].
Proof.
  unfold fetch_gmb_reviews.
  destruct (PyStr.is_empty account_id || PyStr.is_empty location_id); [reflexivity|].
  destruct (Clock.minus_days now days); try reflexivity.
  apply fetch_loop_no_put.
Qed.

Lemma generate_loop_no_put (json_loads : string -> option json) (instructions : string)
    (answers : nat -> completion) (reviews : list json) (step : nat) :
  forall offsets k acc,
    publish_attempts
      (snd (generate_loop json_loads instructions answers reviews step offsets k acc)) = [].
Proof.
  induction offsets as [|i offsets IH]; intros k acc; simpl; [reflexivity|].
  destruct (build_prompt instructions i (slice reviews i (i + step))) as [prompt| |];
    try reflexivity.
  specialize (IH (S k)
    match batch_replies json_loads (answers k) with
    | Some replies => acc ++ replies
    | None => acc
    end).
  destruct (generate_loop json_loads instructions answers reviews step offsets (S k) _)
    as [o evs].
  exact IH.
Qed.

Lemma generate_no_put (json_loads : string -> option json) (instructions : string)
    (answers : nat -> completion) (reviews : list json) (batch_size : Z) :
  publish_attempts
    (snd (generate_review_replies_batch json_loads instructions answers reviews batch_size))
  = [].
Proof.
  unfold generate_review_replies_batch.
  destruct (batch_size =? 0)%Z; [reflexivity|].
  destruct (batch_size <? 0)%Z; [reflexivity|].
  apply generate_loop_no_put.
Qed.

(** A publish loop that returns has made, pair by pair, the request for the
    review of the pair with the text of its draft. *)
Lemma publish_loop_pairwise (puts : nat -> bool) (account_id location_id : string) :
  forall pairs k trace,
    publish_loop puts account_id location_id k pairs = (Return tt, trace) ->
    Forall2 (fun pair ev => attempt_of account_id location_id pair = Return ev)
            pairs trace
    /\ publish_attempts trace = trace.
Proof.
  induction pairs as [|[review reply] pairs IH]; intros k trace H.
  - simpl in H. inversion H. split; [constructor | reflexivity].
  - destruct (attempt_of account_id location_id (review, reply)) as [ev| |] eqn:Ea.
    + rewrite (publish_loop_step _ _ _ _ _ _ _ Ea) in H.
      destruct (puts k); [|discriminate].
      destruct (publish_loop puts account_id location_id (S k) pairs) as [o evs] eqn:Er.
      simpl in H. inversion H; subst; clear H.
      destruct (IH (S k) evs Er) as [Hall Hput].
      split; [constructor; assumption|].
      unfold attempt_of in Ea. simpl in Ea.
      destruct (Py.subscript review "reviewId"); simpl in Ea; try discriminate.
      destruct (Py.subscript reply "reply_text"); simpl in Ea; try discriminate.
      inversion Ea; subst. unfold publish_attempts in *. simpl. now rewrite Hput.
    + exfalso. simpl in H. unfold attempt_of in Ea. simpl in Ea.
      destruct (Py.subscript review "reviewId") as [rid| |]; simpl in *;
        try discriminate.
      destruct (Py.subscript reply "reply_text") as [text| |]; simpl in *;
        discriminate.
    + exfalso. simpl in H. unfold attempt_of in Ea. simpl in Ea.
      destruct (Py.subscript review "reviewId") as [rid| |]; simpl in *;
        try discriminate.
      destruct (Py.subscript reply "reply_text") as [text| |]; simpl in *;
        discriminate.
Qed.

(** *** The entry point *)

Section EntryProperties.

Variable strptime : string -> option Z.
Variable json_loads : string -> option json.
Variable py_int : string -> option Z.
Variable PROMPT_INSTRUCTIONS : string.
Variable ENV : string.

Local Abbreviation fetch_gmb_reviews := (fetch_gmb_reviews strptime).
Local Abbreviation generate_review_replies_batch :=
  (generate_review_replies_batch json_loads PROMPT_INSTRUCTIONS).
Local Abbreviation reply_to_unreplied_reviews :=
  (reply_to_unreplied_reviews json_loads PROMPT_INSTRUCTIONS).
Local Abbreviation concerns_only := (concerns_only PROMPT_INSTRUCTIONS).
Local Abbreviation reply_reviews :=
  (reply_reviews strptime json_loads py_int PROMPT_INSTRUCTIONS ENV).

(** Past the gates the handler parses [days] and runs the pipeline. *)
Lemma reply_reviews_gated (fuel : nat) (net : network) (now : Z) (req : request) :
  passes_gates ENV req = true ->
  reply_reviews fuel net now req
  = let account_id := or_default (arg_account_id req) "" in
    let location_id := or_default (arg_location_id req) "" in
    match py_int (or_default (arg_days req) "1") with
    | None => (Some (mkResponse 400 (ErrorText "Days must be an integer") true), [])
    | Some days_int =>
        match fetch_gmb_reviews fuel (feed net) now account_id location_id days_int with
        | (Return reviews, evs) =>
            match reply_to_unreplied_reviews net reviews account_id location_id with
            | (Return _, evs') =>
                match unreplied reviews with
                | Return l =>
                    (Some (mkResponse 200
                             (StatusText ("Processed " ^^ PyStr.of_nat (List.length l)
                                          ^^ " unreplied reviews")) true),
                     evs ++ evs')
                | Raise e => (Some (mkResponse 500 (ErrorOf e) true), evs ++ evs')
                | Running => (None, evs ++ evs')
                end
            | (Raise e, evs') => (Some (mkResponse 500 (ErrorOf e) true), evs ++ evs')
            | (Running, evs') => (None, evs ++ evs')
            end
        | (Raise e, evs) => (Some (mkResponse 500 (ErrorOf e) true), evs)
        | (Running, evs) => (None, evs)
        end
    end.
Proof.
  unfold passes_gates, reply_reviews. intros H.
  apply andb_prop in H as [H H3]. apply andb_prop in H as [H1 H2].
  apply negb_true_iff in H1, H2, H3.
  rewrite H1, H2, H3. reflexivity.
Qed.

(** A response that is not 200 is not the end of a complete run. *)
Lemma reply_reviews_ok (fuel : nat) (net : network) (now : Z) (req : request)
    (resp : http_response) (trace : list event) :
  reply_reviews fuel net now req = (Some resp, trace) ->
  status resp = 200 ->
  passes_gates ENV req = true.
Proof.
  unfold passes_gates, reply_reviews. intros H Hs.
  destruct (String.eqb ENV "development"
            && negb (String.eqb (or_default (forwarded_proto req) "http") "https")).
  { inversion H; subst. discriminate. }
  destruct (String.eqb (method req) "OPTIONS").
  { inversion H; subst. discriminate. }
  destruct (arg_missing (arg_account_id req) || arg_missing (arg_location_id req)).
  { inversion H; subst. discriminate. }
  reflexivity.
Qed.

(** C5, as the code has it.  In a run answered with 200 the publish attempts
    are, position by position, the requests for the eligible reviews paired
    with the drafts, one for each pair of the shorter of the two lists; the
    count in the body is the number of eligible reviews. *)
Theorem C5_pairing_and_reported_count :
  forall (fuel : nat) (net : network) (now : Z) (req : request)
         (resp : http_response) (trace : list event),
    reply_reviews fuel net now req = (Some resp, trace) ->
    status resp = 200 ->
    let account_id := or_default (arg_account_id req) "" in
    let location_id := or_default (arg_location_id req) "" in
    exists days reviews el replies,
      fst (fetch_gmb_reviews fuel (feed net) now account_id location_id days)
        = Return reviews
      /\ unreplied reviews = Return el
      /\ ((el = [] /\ replies = [])
          \/ fst (generate_review_replies_batch (chat net) el 10) = Return replies)
      /\ Forall2 (fun pair ev => attempt_of account_id location_id pair = Return ev)
                 (combine el replies) (publish_attempts trace)
      /\ List.length (publish_attempts trace)
         = Nat.min (List.length el) (List.length replies)
      /\ content resp
         = StatusText ("Processed " ^^ PyStr.of_nat (List.length el)
                       ^^ " unreplied reviews").
Proof.
  intros fuel net now req resp trace H Hs a l.
  pose proof (reply_reviews_ok fuel net now req resp trace H Hs) as Hgate.
  rewrite (reply_reviews_gated fuel net now req Hgate) in H.
  fold a l in H. cbv zeta in H.
  destruct (py_int (or_default (arg_days req) "1")) as [days|];
    [|inversion H; subst; discriminate].
  pose proof (fetch_no_put strptime fuel (feed net) now a l days) as Hf.
  destruct (fetch_gmb_reviews fuel (feed net) now a l days) as [o evs] eqn:Efetch.
  cbn [snd] in Hf.
  destruct o as [reviews| |]; try (inversion H; subst; discriminate).
  unfold reply_to_unreplied_reviews in H.
  destruct (unreplied reviews) as [el| |] eqn:Eu;
    try (inversion H; subst; discriminate).
  exists days, reviews, el.
  destruct el as [|r el].
  - exists []. inversion H; subst; clear H. cbn [fst content].
    rewrite app_nil_r, Hf.
    split; [now rewrite Efetch|].
    split; [exact Eu|].
    split; [left; split; reflexivity|].
    split; [constructor|].
    split; reflexivity.
  - cbv beta iota in H.
    pose proof (generate_no_put json_loads PROMPT_INSTRUCTIONS (chat net) (r :: el) 10)
      as Hg.
    destruct (generate_review_replies_batch (chat net) (r :: el) 10) as [og gevs]
      eqn:Egen.
    cbn [snd] in Hg.
    destruct og as [replies| |]; cbn [bind] in H;
      try (inversion H; subst; discriminate).
    destruct (publish_loop (put net) a l 0 (combine (r :: el) replies)) as [op pevs]
      eqn:Epub.
    destruct op as [[]| |]; try (inversion H; subst; discriminate).
    destruct (publish_loop_pairwise _ _ _ _ _ _ Epub) as [Hpairs Hputs].
    exists replies. inversion H; subst; clear H. cbn [fst content].
    assert (Htrace : publish_attempts (evs ++ gevs ++ pevs) = pevs).
    { unfold publish_attempts in *. now rewrite !filter_app, Hf, Hg, Hputs. }
    rewrite Htrace.
    split; [now rewrite Efetch|].
    split; [exact Eu|].
    split; [now right|].
    split; [exact Hpairs|].
    split; [|reflexivity].
    rewrite <- (Forall2_length Hpairs). apply length_combine.
Qed.

(** C7, as the code has it.  A [days] that [int] rejects is answered 400 with
    no request made; an absent [days] stands for 1; every integer, zero and
    negative ones included, is accepted and the run goes on to fetch with
    it. *)
Theorem C7_days_must_parse :
  forall (fuel : nat) (net : network) (now : Z) (req : request),
    passes_gates ENV req = true ->
    let days := or_default (arg_days req) "1" in
    let account_id := or_default (arg_account_id req) "" in
    let location_id := or_default (arg_location_id req) "" in
    (py_int days = None ->
     reply_reviews fuel net now req
     = (Some (mkResponse 400 (ErrorText "Days must be an integer") true), []))
    /\ (forall d, py_int days = Some d ->
          (forall resp, fst (reply_reviews fuel net now req) = Some resp ->
                        status resp <> 400)
          /\ exists later,
               snd (reply_reviews fuel net now req)
               = snd (fetch_gmb_reviews fuel (feed net) now account_id location_id d)
                 ++ later).
Proof.
  intros fuel net now req Hgate days a l.
  rewrite (reply_reviews_gated fuel net now req Hgate).
  fold days a l. cbv zeta.
  split.
  - intros ->. reflexivity.
  - intros d ->.
    destruct (fetch_gmb_reviews fuel (feed net) now a l d) as [o evs].
    destruct o as [reviews| |].
    + destruct (reply_to_unreplied_reviews net reviews a l) as [o' evs'].
      destruct o' as [u| |].
      * destruct (unreplied reviews) as [el| |]; cbn [fst snd];
          (split; [intros resp Hr; inversion Hr; subst; cbn; discriminate
                  | exists evs'; reflexivity]).
      * cbn [fst snd].
        split; [intros resp Hr; inversion Hr; subst; cbn; discriminate
               | exists evs'; reflexivity].
      * cbn [fst snd]. split; [discriminate | exists evs'; reflexivity].
    + cbn [fst snd].
      split; [intros resp Hr; inversion Hr; subst; cbn; discriminate
             | exists []; now rewrite app_nil_r].
    + cbn [fst snd]. split; [discriminate | exists []; now rewrite app_nil_r].
Qed.

(** C6.  The list the orchestrator works on is exactly the reviews with no
    reply and a comment that is not blank; every generation and publish
    request of a run concerns one of them; and with none of them the run
    makes no request and returns, and the entry point answers 200 with a
    count of 0. *)
Theorem C6_eligible_set :
  forall (reviews : list json),
    (forallb well_formed reviews = true ->
     unreplied reviews = Return (filter eligible reviews))
    /\ (forall el, unreplied reviews = Return el ->
          el = filter eligible reviews
          /\ forall r, In r el <->
               In r reviews
               /\ no_reply r = true
               /\ exists s, comment_text r = Some s /\ blank s = false)
    /\ (forall net account_id location_id,
          Forall (concerns_only account_id location_id (filter eligible reviews))
                 (snd (reply_to_unreplied_reviews net reviews account_id location_id)))
    /\ (forall net account_id location_id,
          unreplied reviews = Return [] ->
          reply_to_unreplied_reviews net reviews account_id location_id
          = (Return tt, []))
    /\ (forall fuel net now req days evs,
          passes_gates ENV req = true ->
          py_int (or_default (arg_days req) "1") = Some days ->
          fetch_gmb_reviews fuel (feed net) now
            (or_default (arg_account_id req) "")
            (or_default (arg_location_id req) "") days = (Return reviews, evs) ->
          unreplied reviews = Return [] ->
          reply_reviews fuel net now req
          = (Some (mkResponse 200 (StatusText "Processed 0 unreplied reviews") true),
             evs)).
Proof.
  intros reviews. split; [|split; [|split; [|split]]].
  - apply unreplied_well_formed.
  - intros el Hu. apply unreplied_filter in Hu. split; [exact Hu|].
    intros r. rewrite Hu, filter_In. unfold eligible.
    split.
    + intros [Hin He]. apply andb_prop in He as [Hn Hc].
      repeat split; [exact Hin | exact Hn |].
      destruct (comment_text r) as [s|]; [|discriminate].
      exists s. split; [reflexivity|]. now apply negb_true_iff in Hc.
    + intros (Hin & Hn & s & Hs & Hb). split; [exact Hin|].
      now rewrite Hn, Hs, Hb.
  - intros net a l. unfold reply_to_unreplied_reviews.
    destruct (unreplied reviews) as [el| |] eqn:Hu; try constructor.
    apply unreplied_filter in Hu. rewrite <- Hu.
    destruct el as [|r el]; [constructor|]. cbv beta iota.
    pose proof (generate_concerns json_loads PROMPT_INSTRUCTIONS
                  (chat net) (r :: el) 10 a l) as Hg.
    destruct (generate_review_replies_batch (chat net) (r :: el) 10) as [o evs].
    cbn [snd] in Hg.
    destruct o as [replies| |]; cbn [snd bind]; try exact Hg.
    pose proof (publish_loop_concerns PROMPT_INSTRUCTIONS (put net) a l (r :: el)
                  (combine (r :: el) replies) 0) as Hpub.
    destruct (publish_loop (put net) a l 0 (combine (r :: el) replies)) as [o' evs'].
    cbn [snd] in *. apply Forall_app. split; [exact Hg|].
    apply Hpub. intros [x y] Hxy. cbn [fst]. eapply in_combine_l; eauto.
  - intros net a l Hu. unfold reply_to_unreplied_reviews. now rewrite Hu.
  - intros fuel net now req days evs Hgate Hdays Hfetch Hu.
    rewrite (reply_reviews_gated fuel net now req Hgate). cbv zeta.
    rewrite Hdays, Hfetch.
    unfold reply_to_unreplied_reviews. rewrite Hu.
    now rewrite app_nil_r.
Qed.

End EntryProperties.

(** *** Code fences *)

Lemma append_assoc (a b c : string) : (a ^^ b) ^^ c = a ^^ b ^^ c.
Proof. induction a as [|x a IH]; simpl; [reflexivity | now rewrite IH]. Qed.

Lemma length_append (a b : string) :
  String.length (a ^^ b) = String.length a + String.length b.
Proof. induction a as [|x a IH]; simpl; [reflexivity | now rewrite IH]. Qed.

Lemma drop_append (a b : string) : PyStr.drop (String.length a) (a ^^ b) = b.
Proof. induction a as [|x a IH]; simpl; [reflexivity | exact IH]. Qed.

Lemma take_append (a b : string) : PyStr.take (String.length a) (a ^^ b) = a.
Proof. induction a as [|x a IH]; simpl; [reflexivity | now rewrite IH]. Qed.

Lemma endswith_append (a t : string) : PyStr.endswith t (a ^^ t) = true.
Proof.
  unfold PyStr.endswith. rewrite length_append.
  replace (String.length a + String.length t - String.length t)
    with (String.length a) by lia.
  rewrite drop_append, String.eqb_refl.
  replace (String.length t <=? String.length a + String.length t) with true
    by (symmetry; apply Nat.leb_le; lia).
  reflexivity.
Qed.

Lemma drop_last_append (a t : string) :
  PyStr.drop_last (String.length t) (a ^^ t) = a.
Proof.
  unfold PyStr.drop_last. rewrite length_append.
  replace (String.length a + String.length t - String.length t)
    with (String.length a) by lia.
  apply take_append.
Qed.

(** Right-stripping leaves a string alone when its end is a non-empty
    string that right-stripping leaves alone. *)
Lemma rstrip_append_fixed (a t : string) :
  t <> EmptyString -> PyStr.rstrip t = t -> PyStr.rstrip (a ^^ t) = a ^^ t.
Proof.
  intros Hne Ht.
  induction a as [|x a IH]; simpl; [exact Ht|].
  rewrite IH.
  destruct (a ^^ t) as [|y r] eqn:E; [|reflexivity].
  destruct a; simpl in E; [congruence | discriminate].
Qed.

Lemma lstrip_append (c t : string) (x : ascii) :
  PyStr.is_space x = false ->
  PyStr.lstrip (c ^^ String x t) = PyStr.lstrip c ^^ String x t.
Proof.
  intros Hx.
  induction c as [|y c IH]; simpl.
  - now rewrite Hx.
  - destruct (PyStr.is_space y); [exact IH | reflexivity].
Qed.

Lemma lstrip_idempotent (s : string) : PyStr.lstrip (PyStr.lstrip s) = PyStr.lstrip s.
Proof.
  induction s as [|c s IH]; simpl; [reflexivity|].
  destruct (PyStr.is_space c) eqn:E; [exact IH|].
  simpl. now rewrite E.
Qed.

(** A fence opened with the [json] tag is removed: what is parsed is the
    fenced text, stripped. *)
Lemma json_fence_removed (fenced : string) :
  json_text ("```json" ^^ fenced ^^ "```") = PyStr.strip fenced.
Proof.
  unfold json_text, strip_code_fence.
  assert (Hfix : PyStr.rstrip "```" = "```") by reflexivity.
  assert (Hne : "```" <> EmptyString) by discriminate.
  assert (Hwhole : PyStr.strip ("```json" ^^ fenced ^^ "```")
                   = "```json" ^^ fenced ^^ "```").
  { unfold PyStr.strip.
    change (PyStr.lstrip ("```json" ^^ fenced ^^ "```"))
      with ("```json" ^^ fenced ^^ "```").
    rewrite <- append_assoc. now apply rstrip_append_fixed. }
  rewrite Hwhole, startswith_append.
  change (PyStr.drop 7 ("```json" ^^ fenced ^^ "```")) with (fenced ^^ "```").
  assert (Hbody : PyStr.strip (fenced ^^ "```") = PyStr.lstrip fenced ^^ "```").
  { unfold PyStr.strip.
    rewrite (lstrip_append fenced "``" "`"%char) by reflexivity.
    now apply rstrip_append_fixed. }
  rewrite Hbody, endswith_append.
  change 3 with (String.length "```").
  rewrite drop_last_append.
  unfold PyStr.strip. now rewrite lstrip_idempotent.
Qed.

(** C9.  A fence without a language tag is not removed: the closing fence is
    cut, the opening one stays, and the text handed to the parser is not the
    fenced content.  The same content unfenced, or fenced with the [json]
    tag, yields its draft. *)
Theorem C9_bare_fence_left_in_place :
  json_text Sample.bare_fence = "```" ^^ PyFormat.NL ^^ Sample.fenced_content
  /\ json_text Sample.bare_fence <> Sample.fenced_content
  /\ batch_replies Basic.json_loads (Content Sample.bare_fence) = None
  /\ batch_replies Basic.json_loads (Content Sample.fenced_content)
     = Some [Sample.draft "r1" "Thank you Jane"]
  /\ batch_replies Basic.json_loads (Content Sample.json_fence)
     = Some [Sample.draft "r1" "Thank you Jane"].
Proof.
  repeat split; try (vm_compute; reflexivity).
  vm_compute. discriminate.
Qed.

(** *** The properties on concrete runs *)

(** C1 at five reviews with five drafts when the third publish fails: the
    first three pairs are attempted and the error is raised. *)
Lemma C1_publish_stops_witness :
  Sample.orchestrate (Sample.failing_net 2) Sample.five_reviews
  = (Raise (RuntimeError "Failed to post reply"),
     completion_requests EmptyString Sample.five_reviews 10
     ++ pair_requests "123" "456"
          (firstn 3 (combine Sample.five_reviews Sample.five_replies))).
Proof.
  refine (proj1 (C1_publish_stops_at_first_failure Basic.json_loads EmptyString
                   (Sample.failing_net 2) Sample.five_reviews "123" "456"
                   Sample.five_reviews Sample.five_replies
                   (completion_requests EmptyString Sample.five_reviews 10)
                   _ _ _ _) 2 _ _ _).
  - vm_compute. reflexivity.
  - discriminate.
  - vm_compute. reflexivity.
  - vm_compute. reflexivity.
  - simpl. lia.
  - intros [|[|i]] Hi; [reflexivity | reflexivity | lia].
  - reflexivity.
Defined.

(** C1 fails on the code: with five pairs and a failure of the second
    publish, two attempts are made and the pairs of [r3], [r4] and [r5] get
    none. *)
Lemma C1_later_pairs_not_attempted :
  let run := Sample.orchestrate (Sample.failing_net 1) Sample.five_reviews in
  List.length (combine Sample.five_reviews Sample.five_replies) = 5
  /\ fst (generate_review_replies_batch Basic.json_loads EmptyString
            (chat (Sample.failing_net 1)) Sample.five_reviews 10)
     = Return Sample.five_replies
  /\ fst run = Raise (RuntimeError "Failed to post reply")
  /\ publish_attempts (snd run)
     = [PutReply (reply_url "123" "456" (JStr "r1")) (JStr "Thank you r1");
        PutReply (reply_url "123" "456" (JStr "r2")) (JStr "Thank you r2")]
  /\ ~ In (PutReply (reply_url "123" "456" (JStr "r3")) (JStr "Thank you r3"))
          (snd run).
Proof.
  repeat split; try (vm_compute; reflexivity).
  vm_compute. intros H.
  repeat (destruct H as [H|H]; [discriminate|]). exact H.
Qed.

(** C2 at one batch of two reviews answered with two drafts. *)
Lemma C2_batch_drafts_witness :
  (exists trace,
      generate_review_replies_batch Basic.json_loads EmptyString
        (Sample.answer_once Sample.two_drafts) [Sample.slow; Sample.jane] 10
      = (Return (contributed_upto Basic.json_loads
                   (Sample.answer_once Sample.two_drafts)
                   (List.length (batches [Sample.slow; Sample.jane] (Z.to_nat 10)))),
         trace))
  /\ forall k,
      contributed Basic.json_loads (Sample.answer_once Sample.two_drafts k) = []
      \/ exists text,
           Sample.answer_once Sample.two_drafts k = Content text
           /\ Basic.json_loads (json_text text)
              = Some (JArr (contributed Basic.json_loads
                              (Sample.answer_once Sample.two_drafts k)))
           /\ forallb valid_reply
                (contributed Basic.json_loads (Sample.answer_once Sample.two_drafts k))
              = true.
Proof.
  apply (C2_batch_drafts_as_answered Basic.json_loads EmptyString
           (Sample.answer_once Sample.two_drafts) [Sample.slow; Sample.jane] 10).
  - lia.
  - reflexivity.
Defined.

(** C2 fails on the code: a batch of one review answered with two drafts
    that both name a review the batch does not hold contributes both. *)
Lemma C2_drafts_outside_contract :
  let batch := [Sample.jane] in
  let drafts := [Sample.draft "zzz" "Thanks"; Sample.draft "zzz" "Thanks again"] in
  generate_review_replies_batch Basic.json_loads EmptyString
    (Sample.answer_once Sample.repeated_drafts) batch 10
  = (Return drafts, completion_requests EmptyString batch 10)
  /\ batches batch 10 = [batch]
  /\ List.length batch < List.length drafts
  /\ ~ NoDup (map draft_review_id drafts)
  /\ (forall r, In r batch ->
        review_id_of r <> draft_review_id (Sample.draft "zzz" "Thanks"))
  /\ ~ within_contract batch drafts.
Proof.
  cbv zeta. split; [vm_compute; reflexivity|].
  split; [vm_compute; reflexivity|].
  split; [simpl; lia|].
  split; [|split].
  - intros H. inversion H as [|x l Hx _]; subst. apply Hx. now left.
  - intros r [<-|[]]. vm_compute. discriminate.
  - intros [H | (Hlen & _)]; [discriminate | simpl in Hlen; lia].
Qed.

(** C3 at a page of two recent reviews and an old one, with one day of
    lookback. *)
Lemma C3_fetch_window_witness :
  let fetched := fetched_reviews Sample.recent_feed 1 in
  let result := [Sample.slow; Sample.jane] in
  result = filter (in_window Basic.strptime Sample.cutoff) fetched
  /\ (forall r, In r result ->
        In r fetched
        /\ exists t, create_time Basic.strptime r = Some t /\ (t >= Sample.cutoff)%Z)
  /\ (forall r t, In r fetched -> create_time Basic.strptime r = Some t ->
        (t >= Sample.cutoff)%Z -> In r result)
  /\ (forall r t, In r fetched -> create_time Basic.strptime r = Some t ->
        (t < Sample.cutoff)%Z -> ~ In r result).
Proof.
  apply (C3_fetch_returns_window Basic.strptime 5 Sample.recent_feed Sample.now
           "123" "456" 1 [Sample.slow; Sample.jane]
           [GetReviews (reviews_url "123" "456") None]).
  vm_compute. reflexivity.
Defined.

Lemma long_feed_in_window (n : nat) :
  in_window_upto Basic.strptime Sample.long_feed Sample.cutoff n <= 1.
Proof.
  destruct n as [|[|n]]; [vm_compute; lia | vm_compute; lia |].
  assert (H : in_window_upto Basic.strptime Sample.long_feed Sample.cutoff (S (S n)) = 1).
  { induction n as [|n IH]; [vm_compute; reflexivity|].
    change (in_window_upto Basic.strptime Sample.long_feed Sample.cutoff (S (S n))
            + in_window_count Basic.strptime Sample.cutoff (Sample.long_feed (S (S n)))
            = 1).
    rewrite IH. reflexivity. }
  lia.
Qed.

(** C4 at a feed whose first page has one recent review and whose second
    has an old one: the loop is over after at most two requests. *)
Lemma C4_pagination_witness :
  exists n, n <= 1 + 1
    /\ forall fuel, n <= fuel ->
         fst (fetch_loop Basic.strptime fuel Sample.long_feed
                (reviews_url "123" "456") Sample.cutoff 0 None []) <> Running
         /\ List.length
              (snd (fetch_loop Basic.strptime fuel Sample.long_feed
                      (reviews_url "123" "456") Sample.cutoff 0 None [])) = n.
Proof.
  exact (proj1 (proj2 (C4_pagination_terminates Basic.strptime Sample.long_feed
                         (reviews_url "123" "456") Sample.cutoff))
               1 long_feed_in_window).
Defined.

(** C5 at a run that fetches two recent reviews and gets a draft for each. *)
Lemma C5_pairing_witness :
  let trace := snd (Sample.handle Sample.happy_net (Sample.get_request (Some "1"))) in
  exists days reviews el replies,
    fst (fetch_gmb_reviews Basic.strptime 5 (feed Sample.happy_net) Sample.now
           "123" "456" days) = Return reviews
    /\ unreplied reviews = Return el
    /\ ((el = [] /\ replies = [])
        \/ fst (generate_review_replies_batch Basic.json_loads EmptyString
                  (chat Sample.happy_net) el 10) = Return replies)
    /\ Forall2 (fun pair ev => attempt_of "123" "456" pair = Return ev)
               (combine el replies) (publish_attempts trace)
    /\ List.length (publish_attempts trace)
       = Nat.min (List.length el) (List.length replies)
    /\ StatusText "Processed 2 unreplied reviews"
       = StatusText ("Processed " ^^ PyStr.of_nat (List.length el)
                     ^^ " unreplied reviews").
Proof.
  apply (C5_pairing_and_reported_count Basic.strptime Basic.json_loads Basic.py_int
           EmptyString "production" 5 Sample.happy_net Sample.now
           (Sample.get_request (Some "1"))
           (mkResponse 200 (StatusText "Processed 2 unreplied reviews") true)
           (snd (Sample.handle Sample.happy_net (Sample.get_request (Some "1"))))).
  - vm_compute. reflexivity.
  - reflexivity.
Defined.

(** C5 fails on the code: one eligible review and an answer that is not
    JSON give no draft and no publish attempt, and the body reports 1. *)
Lemma C5_count_exceeds_attempts :
  let run := Sample.handle Sample.prose_net (Sample.get_request (Some "1")) in
  fst run = Some (mkResponse 200 (StatusText "Processed 1 unreplied reviews") true)
  /\ publish_attempts (snd run) = []
  /\ List.length (publish_attempts (snd run)) <> 1.
Proof.
  repeat split; try (vm_compute; reflexivity).
  vm_compute. discriminate.
Qed.

(** C6 at the three reviews of the selection example: only the third is
    selected. *)
Lemma C6_selection_witness :
  unreplied [Sample.empty_comment; Sample.replied; Sample.meh]
  = Return (filter eligible [Sample.empty_comment; Sample.replied; Sample.meh])
  /\ filter eligible [Sample.empty_comment; Sample.replied; Sample.meh] = [Sample.meh].
Proof.
  split.
  - apply (proj1 (C6_eligible_set Basic.strptime Basic.json_loads Basic.py_int
                    EmptyString "production"
                    [Sample.empty_comment; Sample.replied; Sample.meh])).
    reflexivity.
  - reflexivity.
Defined.

(** C7 at a [days] that is not a number. *)
Lemma C7_days_witness :
  Sample.handle Sample.happy_net (Sample.get_request (Some "soon"))
  = (Some (mkResponse 400 (ErrorText "Days must be an integer") true), []).
Proof.
  apply (proj1 (C7_days_must_parse Basic.strptime Basic.json_loads Basic.py_int
                  EmptyString "production" 5 Sample.happy_net Sample.now
                  (Sample.get_request (Some "soon")) eq_refl)).
  reflexivity.
Defined.

(** C7 fails on the code: [days] of zero and of minus three are accepted;
    the run fetches and answers 200. *)
Lemma C7_zero_and_negative_days_accepted :
  Basic.py_int "0" = Some 0%Z
  /\ Basic.py_int "-3" = Some (-3)%Z
  /\ Sample.handle Sample.quiet_net (Sample.get_request (Some "0"))
     = (Some (mkResponse 200 (StatusText "Processed 0 unreplied reviews") true),
        [GetReviews (reviews_url "123" "456") None])
  /\ Sample.handle Sample.quiet_net (Sample.get_request (Some "-3"))
     = (Some (mkResponse 200 (StatusText "Processed 0 unreplied reviews") true),
        [GetReviews (reviews_url "123" "456") None]).
Proof.
  repeat split; vm_compute; reflexivity.
Qed.

(** C8 at five reviews in batches of two. *)
Lemma C8_batches_witness :
  let answers := Sample.answer_once Sample.five_drafts in
  let step := Z.to_nat 2 in
  List.concat (batches Sample.five_reviews step) = Sample.five_reviews
  /\ Forall (fun batch => List.length batch <= step) (batches Sample.five_reviews step)
  /\ (forallb promptable Sample.five_reviews = true ->
      generate_review_replies_batch Basic.json_loads EmptyString answers
        Sample.five_reviews 2
      = (Return (contributed_upto Basic.json_loads answers
                   (List.length (batches Sample.five_reviews step))),
         completion_requests EmptyString Sample.five_reviews step))
  /\ forall n,
      contributed_upto Basic.json_loads answers (S n)
      = contributed_upto Basic.json_loads answers n
        ++ contributed Basic.json_loads (answers n).
Proof.
  apply (C8_batches_partition_in_order Basic.json_loads EmptyString
           (Sample.answer_once Sample.five_drafts) Sample.five_reviews 2).
  lia.
Defined.

(** ** Further properties *)

(** *** Fetching: requests, results and failures *)

Section FetchFurther.

Variable strptime : string -> option Z.

Local Abbreviation in_window := (in_window strptime).
Local Abbreviation has_time := (has_time strptime).
Local Abbreviation filter_reviews := (filter_reviews strptime).
Local Abbreviation fetch_loop := (fetch_loop strptime).
Local Abbreviation fetch_gmb_reviews := (fetch_gmb_reviews strptime).
Local Abbreviation continues := (continues strptime).
Local Abbreviation stops := (stops strptime).
Local Abbreviation aborts := (aborts strptime).

(** The token a request carries is the one the loop holds, an empty token
    counting as none. *)
Lemma fetch_loop_trace (server : nat -> response) (url : string) (cutoff_date : Z) :
  forall fuel n tok acc,
    (if token_present tok then tok else None) = request_token server n ->
    snd (fetch_loop fuel server url cutoff_date n tok acc)
    = map (fun i => GetReviews url (request_token server i))
          (seq n (List.length (snd (fetch_loop fuel server url cutoff_date n tok acc)))).
Proof.
  induction fuel as [|fuel IH]; intros n tok acc Htok; simpl; [reflexivity|].
  rewrite Htok.
  destruct (server n) as [st| |data] eqn:Es; try reflexivity.
  destruct (filter_reviews cutoff_date (reviews data)) as [kept|]; [|reflexivity].
  destruct (token_present (nextPageToken data)) eqn:Et; simpl; [|reflexivity].
  destruct kept as [|r kept]; [reflexivity|].
  specialize (IH (S n) (nextPageToken data) (acc ++ r :: kept)).
  destruct (fetch_loop fuel server url cutoff_date (S n) (nextPageToken data)
              (acc ++ r :: kept)) as [o evs].
  cbn [snd] in *. simpl. f_equal. apply IH.
  rewrite Et. simpl. now rewrite Es.
Qed.

(** The loop returns at the first answer that stops. *)
Lemma fetch_loop_stops (server : nat -> response) (url : string) (cutoff_date : Z) :
  forall m fuel n tok acc,
    (forall i, i < m -> continues cutoff_date (server (n + i)) = true) ->
    stops cutoff_date (server (n + m)) = true ->
    m < fuel ->
    fst (fetch_loop fuel server url cutoff_date n tok acc)
    = Return (acc ++ filter (in_window cutoff_date)
                       (flat_map (fun i => reviews_of (server i)) (seq n (S m)))).
Proof.
  induction m as [|m IH]; intros fuel n tok acc Hbefore Hstop Hfuel;
    (destruct fuel as [|fuel]; [lia|]); simpl.
  - replace (n + 0) with n in Hstop by lia.
    unfold stops, continues, in_window_count in Hstop.
    destruct (server n) as [st| |data] eqn:Es; simpl in *; try discriminate.
    rewrite app_nil_r.
    destruct (filter_reviews cutoff_date (reviews data)) as [kept|] eqn:Ef.
    + apply filter_reviews_some in Ef as [-> Hall]. rewrite Hall in Hstop.
      simpl in Hstop.
      destruct (token_present (nextPageToken data)); simpl in *; [|reflexivity].
      destruct (filter (in_window cutoff_date) (reviews data)); simpl in *;
        [reflexivity | discriminate].
    + apply filter_reviews_none in Ef. rewrite Ef in Hstop. discriminate.
  - assert (H0 : continues cutoff_date (server n) = true).
    { replace n with (n + 0) by lia. apply Hbefore. lia. }
    unfold continues, in_window_count in H0.
    destruct (server n) as [st| |data] eqn:Es; simpl in *; try discriminate.
    apply andb_prop in H0 as [H0 Hcount]. apply andb_prop in H0 as [Hall Htok].
    destruct (filter_reviews cutoff_date (reviews data)) as [kept|] eqn:Ef.
    + apply filter_reviews_some in Ef as [-> _]. rewrite Htok. simpl.
      destruct (filter (in_window cutoff_date) (reviews data)) as [|r kept] eqn:Ek;
        [simpl in Hcount; discriminate|].
      specialize (IH fuel (S n) (nextPageToken data) (acc ++ r :: kept)).
      destruct (fetch_loop fuel server url cutoff_date (S n)
                  (nextPageToken data) (acc ++ r :: kept)) as [o evs] eqn:Er.
      cbn [fst] in *. rewrite IH.
      * rewrite (filter_app (in_window cutoff_date) (reviews data)), Ek,
          <- app_assoc. reflexivity.
      * intros i Hi. replace (S n + i) with (n + S i) by lia. apply Hbefore. lia.
      * now replace (S n + m) with (n + S m) by lia.
      * lia.
    + apply filter_reviews_none in Ef. congruence.
Qed.

(** The loop raises at the first answer that aborts. *)
Lemma fetch_loop_aborts (server : nat -> response) (url : string) (cutoff_date : Z) :
  forall m fuel n tok acc,
    (forall i, i < m -> continues cutoff_date (server (n + i)) = true) ->
    aborts (server (n + m)) = true ->
    m < fuel ->
    exists msg,
      fst (fetch_loop fuel server url cutoff_date n tok acc) = Raise (RuntimeError msg).
Proof.
  induction m as [|m IH]; intros fuel n tok acc Hbefore Habort Hfuel;
    (destruct fuel as [|fuel]; [lia|]); simpl.
  - replace (n + 0) with n in Habort by lia.
    unfold aborts in Habort.
    destruct (server n) as [st| |data] eqn:Es; simpl in *;
      try (eexists; reflexivity).
    destruct (filter_reviews cutoff_date (reviews data)) as [kept|] eqn:Ef;
      [|eexists; reflexivity].
    apply filter_reviews_some in Ef as [_ Hall]. rewrite Hall in Habort.
    discriminate.
  - assert (H0 : continues cutoff_date (server n) = true).
    { replace n with (n + 0) by lia. apply Hbefore. lia. }
    unfold continues, in_window_count in H0.
    destruct (server n) as [st| |data] eqn:Es; simpl in *; try discriminate.
    apply andb_prop in H0 as [H0 Hcount]. apply andb_prop in H0 as [Hall Htok].
    destruct (filter_reviews cutoff_date (reviews data)) as [kept|] eqn:Ef.
    + apply filter_reviews_some in Ef as [-> _]. rewrite Htok. simpl.
      destruct (filter (in_window cutoff_date) (reviews data)) as [|r kept] eqn:Ek;
        [simpl in Hcount; discriminate|].
      specialize (IH fuel (S n) (nextPageToken data) (acc ++ r :: kept)).
      destruct (fetch_loop fuel server url cutoff_date (S n)
                  (nextPageToken data) (acc ++ r :: kept)) as [o evs] eqn:Er.
      cbn [fst] in *. apply IH.
      * intros i Hi. replace (S n + i) with (n + S i) by lia. apply Hbefore. lia.
      * now replace (S n + m) with (n + S m) by lia.
      * lia.
    + apply filter_reviews_none in Ef. congruence.
Qed.

Lemma stops_not_continues (cutoff_date : Z) (r : response) :
  stops cutoff_date r = true -> continues cutoff_date r = false.
Proof.
  unfold stops. destruct r; try discriminate.
  intros H. apply andb_prop in H as [_ H]. now apply negb_true_iff in H.
Qed.

Lemma aborts_not_continues (cutoff_date : Z) (r : response) :
  aborts r = true -> continues cutoff_date r = false.
Proof.
  unfold aborts, continues. destruct r; try reflexivity.
  intros H. apply negb_true_iff in H. now rewrite H.
Qed.

Lemma fetch_trace_of_run (server : nat -> response) (url : string) (cutoff_date : Z)
    (m fuel : nat) :
  (forall i, i < m -> continues cutoff_date (server i) = true) ->
  continues cutoff_date (server m) = false ->
  m < fuel ->
  snd (fetch_loop fuel server url cutoff_date 0 None [])
  = page_requests server url (S m).
Proof.
  intros Hbefore Hstop Hfuel.
  rewrite (fetch_loop_trace server url cutoff_date fuel 0 None []) by reflexivity.
  rewrite (fetch_loop_requests strptime server url cutoff_date m fuel 0 None []);
    [reflexivity | exact Hbefore | exact Hstop | exact Hfuel].
Qed.

(** The fetch returns at the first page that ends the loop: it has made one
    request per page up to that one, each carrying the token of the page
    before, and it returns the reviews within the window of those pages
    only. *)
Theorem fetch_returns_through_first_stop :
  forall (fuel : nat) (server : nat -> response) (now : Z)
         (account_id location_id : string) (days cutoff_date : Z) (m : nat),
    PyStr.is_empty account_id = false ->
    PyStr.is_empty location_id = false ->
    Clock.minus_days now days = Return cutoff_date ->
    (forall i, i < m -> continues cutoff_date (server i) = true) ->
    stops cutoff_date (server m) = true ->
    m < fuel ->
    fetch_gmb_reviews fuel server now account_id location_id days
    = (Return (filter (in_window cutoff_date) (fetched_reviews server (S m))),
       page_requests server (reviews_url account_id location_id) (S m)).
Proof.
  intros fuel server now a l days c m Ha Hl Hc Hbefore Hstop Hfuel.
  unfold fetch_gmb_reviews. rewrite Ha, Hl, Hc. simpl orb. cbv iota.
  rewrite (surjective_pairing (fetch_loop fuel server (reviews_url a l) c 0 None [])).
  f_equal.
  - now rewrite (fetch_loop_stops server (reviews_url a l) c m fuel 0 None []).
  - apply fetch_trace_of_run with (m := m); auto using stops_not_continues.
Qed.

Lemma fetch_raises_at :
  forall (fuel : nat) (server : nat -> response) (now : Z)
         (account_id location_id : string) (days cutoff_date : Z) (m : nat),
    PyStr.is_empty account_id = false ->
    PyStr.is_empty location_id = false ->
    Clock.minus_days now days = Return cutoff_date ->
    (forall i, i < m -> continues cutoff_date (server i) = true) ->
    aborts (server m) = true ->
    m < fuel ->
    exists msg,
      fetch_gmb_reviews fuel server now account_id location_id days
      = (Raise (RuntimeError msg),
         page_requests server (reviews_url account_id location_id) (S m)).
Proof.
  intros fuel server now a l days c m Ha Hl Hc Hbefore Habort Hfuel.
  destruct (fetch_loop_aborts server (reviews_url a l) c m fuel 0 None []
              Hbefore Habort Hfuel) as [msg Hmsg].
  exists msg.
  unfold fetch_gmb_reviews. rewrite Ha, Hl, Hc. simpl orb. cbv iota.
  rewrite (surjective_pairing (fetch_loop fuel server (reviews_url a l) c 0 None [])).
  f_equal; [exact Hmsg|].
  apply fetch_trace_of_run with (m := m); eauto using aborts_not_continues.
Qed.


Lemma fetch_loop_cost (server : nat -> response) (url : string) (cutoff_date : Z) :
  forall fuel n tok acc result trace,
    fetch_loop fuel server url cutoff_date n tok acc = (Return result, trace) ->
    1 <= List.length trace
    /\ List.length acc + List.length trace <= List.length result + 1.
Proof.
  induction fuel as [|fuel IH]; simpl; intros n tok acc result trace H;
    [discriminate|].
  destruct (server n) as [st| |data]; try discriminate.
  destruct (filter_reviews cutoff_date (reviews data)) as [kept|]; [|discriminate].
  destruct (negb (token_present (nextPageToken data))) eqn:Et; simpl in H.
  - inversion H; subst. rewrite length_app. simpl. lia.
  - destruct kept as [|r kept].
    + inversion H; subst. rewrite length_app. simpl. lia.
    + destruct (fetch_loop fuel server url cutoff_date (S n) (nextPageToken data)
                  (acc ++ r :: kept)) as [o evs] eqn:Er.
      inversion H; subst; clear H.
      apply IH in Er as [H1 H2]. rewrite length_app in H2. simpl in *. lia.
Qed.

(** A fetch that returns has made at least one request and at most one more
    than it returns reviews. *)
Theorem fetch_requests_bounded_by_result :
  forall (fuel : nat) (server : nat -> response) (now : Z)
         (account_id location_id : string) (days : Z)
         (result : list json) (trace : list event),
    fetch_gmb_reviews fuel server now account_id location_id days
      = (Return result, trace) ->
    1 <= List.length trace <= List.length result + 1.
Proof.
  intros fuel server now a l days result trace H.
  unfold fetch_gmb_reviews in H.
  destruct (PyStr.is_empty a || PyStr.is_empty l); [discriminate|].
  destruct (Clock.minus_days now days) as [c| |]; try discriminate.
  apply fetch_loop_cost in H. simpl in H. lia.
Qed.

Lemma fetch_loop_first_request (server : nat -> response) (url : string)
    (cutoff_date : Z) (fuel n : nat) (tok : option string) (acc : list json) :
  snd (fetch_loop (S fuel) server url cutoff_date n tok acc) <> []
  /\ forall e, fst (fetch_loop (S fuel) server url cutoff_date n tok acc) = Raise e ->
               exists msg, e = RuntimeError msg.
Proof.
  revert n tok acc.
  induction fuel as [|fuel IH]; intros n tok acc.
  - simpl.
    destruct (server n) as [st| |data];
      try (split; [discriminate | intros e He; inversion He; eexists; reflexivity]).
    destruct (filter_reviews cutoff_date (reviews data)) as [kept|];
      [|split; [discriminate | intros e He; inversion He; eexists; reflexivity]].
    destruct (negb (token_present (nextPageToken data))
              || match kept with [] => true | _ :: _ => false end);
      split; try discriminate; intros e He; discriminate.
  - change (fetch_loop (S (S fuel)) server url cutoff_date n tok acc)
      with (let params := if token_present tok then tok else None in
            let request := GetReviews url params in
            match server n with
            | HttpError _ => (Raise (RuntimeError "Failed to fetch reviews"), [request])
            | TransportError =>
                (Raise (RuntimeError "Unexpected error fetching reviews"), [request])
            | Page data =>
                match filter_reviews cutoff_date (reviews data) with
                | None =>
                    (Raise (RuntimeError "Unexpected error fetching reviews"), [request])
                | Some filtered_reviews =>
                    if negb (token_present (nextPageToken data))
                       || match filtered_reviews with [] => true | _ => false end
                    then (Return (acc ++ filtered_reviews), [request])
                    else
                      let (o, evs) :=
                        fetch_loop (S fuel) server url cutoff_date (S n)
                          (nextPageToken data) (acc ++ filtered_reviews) in
                      (o, request :: evs)
                end
            end).
    cbv zeta.
    destruct (server n) as [st| |data];
      try (split; [discriminate | intros e He; inversion He; eexists; reflexivity]).
    destruct (filter_reviews cutoff_date (reviews data)) as [kept|];
      [|split; [discriminate | intros e He; inversion He; eexists; reflexivity]].
    destruct (negb (token_present (nextPageToken data))
              || match kept with [] => true | _ :: _ => false end).
    + split; [discriminate | intros e He; discriminate].
    + specialize (IH (S n) (nextPageToken data) (acc ++ kept)).
      destruct (fetch_loop (S fuel) server url cutoff_date (S n)
                  (nextPageToken data) (acc ++ kept)) as [o evs].
      cbn [fst snd] in *. split; [discriminate | exact (proj2 IH)].
Qed.


End FetchFurther.

(** *** Generating: requests, failures and what comes back *)

Section GenerateFurther.

Variable json_loads : string -> option json.
Variable PROMPT_INSTRUCTIONS : string.

Local Abbreviation batch_replies := (batch_replies json_loads).
Local Abbreviation contributed := (contributed json_loads).
Local Abbreviation build_prompt := (build_prompt PROMPT_INSTRUCTIONS).
Local Abbreviation generate_loop := (generate_loop json_loads PROMPT_INSTRUCTIONS).
Local Abbreviation generate_review_replies_batch :=
  (generate_review_replies_batch json_loads PROMPT_INSTRUCTIONS).

Lemma batch_count_step (x step : nat) :
  0 < x -> 0 < step -> batch_count x step = S (batch_count (x - step) step).
Proof.
  intros Hx Hstep. unfold batch_count.
  replace (x + step - 1) with ((x - 1) + 1 * step) by lia.
  rewrite Nat.div_add by lia.
  destruct (Nat.le_gt_cases step x) as [Hle|Hlt].
  - replace (x - step + step - 1) with (x - 1) by lia. lia.
  - replace (x - step + step - 1) with (step - 1) by lia.
    rewrite (Nat.div_small (x - 1)), (Nat.div_small (step - 1)) by lia. lia.
Qed.

Lemma py_range_length (step : nat) :
  0 < step ->
  forall fuel start stop,
    stop - start <= fuel ->
    List.length (py_range fuel start stop step) = batch_count (stop - start) step.
Proof.
  intros Hstep.
  induction fuel as [|fuel IH]; intros start stop Hfuel; simpl.
  - replace (stop - start) with 0 by lia. unfold batch_count.
    symmetry. apply Nat.div_small. lia.
  - destruct (start <? stop) eqn:E.
    + apply Nat.ltb_lt in E. simpl. rewrite IH by lia.
      rewrite (batch_count_step (stop - start) step) by lia.
      do 2 f_equal. lia.
    + apply Nat.ltb_ge in E. replace (stop - start) with 0 by lia.
      unfold batch_count. symmetry. apply Nat.div_small. lia.
Qed.

(** A batch size of zero is a [ValueError] and a negative one gives no draft,
    both without a request; a positive one makes one completion request per
    batch, [ceil(len(reviews) / batch_size)] in all, and no other request. *)
Theorem generate_request_count :
  forall (answers : nat -> completion) (reviews : list json) (batch_size : Z),
    (batch_size = 0%Z ->
     generate_review_replies_batch answers reviews batch_size
     = (Raise (ValueError "range() arg 3 must not be zero"), []))
    /\ ((batch_size < 0)%Z ->
        generate_review_replies_batch answers reviews batch_size = (Return [], []))
    /\ ((0 < batch_size)%Z ->
        forallb promptable reviews = true ->
        let trace := snd (generate_review_replies_batch answers reviews batch_size) in
        List.length trace = batch_count (List.length reviews) (Z.to_nat batch_size)
        /\ forallb is_completion trace = true).
Proof.
  intros answers reviews batch_size. split; [|split].
  - intros ->. reflexivity.
  - intros Hneg. unfold generate_review_replies_batch.
    destruct (batch_size =? 0)%Z eqn:E0; [apply Z.eqb_eq in E0; lia|].
    destruct (batch_size <? 0)%Z eqn:E1; [reflexivity | apply Z.ltb_ge in E1; lia].
  - intros Hpos Hp trace. subst trace.
    rewrite (generate_returns json_loads PROMPT_INSTRUCTIONS answers reviews
               batch_size Hpos Hp).
    cbn [snd]. unfold completion_requests. split.
    + rewrite length_map, py_range_length by lia. f_equal. lia.
    + rewrite forallb_forall. intros ev Hev.
      apply in_map_iff in Hev as (i & <- & _). reflexivity.
Qed.

Lemma prompt_line_raises (i j : nat) (review : json) :
  promptable review = false -> prompt_line i j review = Raise AttributeError.
Proof.
  unfold promptable, prompt_line.
  destruct review as [| | | | |d]; try reflexivity.
  simpl. destruct (Py.dict_get "reviewer" d) as [[| | | | |d']|];
    try discriminate; reflexivity.
Qed.

Lemma prompt_lines_raises (i : nat) (batch : list json) :
  forallb promptable batch = false ->
  forall j prompt, prompt_lines i j batch prompt = Raise AttributeError.
Proof.
  induction batch as [|r batch IH]; simpl; intros H j prompt; [discriminate|].
  destruct (promptable r) eqn:Er.
  - destruct (prompt_line_returns i j r Er) as [line ->]. simpl.
    apply IH. exact H.
  - now rewrite (prompt_line_raises i j r Er).
Qed.

Lemma generate_loop_raises (answers : nat -> completion) (reviews : list json)
    (step : nat) :
  forall offsets k acc,
    forallb (fun i => forallb promptable (slice reviews i (i + step))) offsets = false ->
    fst (generate_loop answers reviews step offsets k acc) = Raise AttributeError.
Proof.
  induction offsets as [|i offsets IH]; intros k acc H; simpl in *; [discriminate|].
  destruct (forallb promptable (slice reviews i (i + step))) eqn:Ei.
  - rewrite (build_prompt_returns PROMPT_INSTRUCTIONS i _ Ei).
    specialize (IH (S k)
      match batch_replies (answers k) with
      | Some replies => acc ++ replies
      | None => acc
      end H).
    destruct (generate_loop answers reviews step offsets (S k) _) as [o evs].
    exact IH.
  - unfold build_prompt. now rewrite (prompt_lines_raises i _ Ei).
Qed.

Lemma forallb_concat {A : Type} (p : A -> bool) (ls : list (list A)) :
  forallb p (List.concat ls) = forallb (forallb p) ls.
Proof.
  induction ls as [|l ls IH]; simpl; [reflexivity|].
  now rewrite forallb_app, IH.
Qed.

(** A review whose prompt line cannot be assembled (it is not an object, or
    its [reviewer] is not one) makes the whole call raise [AttributeError]:
    the assembly is outside the [try], so this failure is not kept to its
    batch and the drafts of the earlier batches are lost. *)
Theorem generate_raises_on_unpromptable_review :
  forall (answers : nat -> completion) (reviews : list json) (batch_size : Z),
    (0 < batch_size)%Z ->
    forallb promptable reviews = false ->
    fst (generate_review_replies_batch answers reviews batch_size)
    = Raise AttributeError.
Proof.
  intros answers reviews batch_size Hpos Hbad.
  unfold generate_review_replies_batch.
  destruct (batch_size =? 0)%Z eqn:E0; [apply Z.eqb_eq in E0; lia|].
  destruct (batch_size <? 0)%Z eqn:E1; [apply Z.ltb_lt in E1; lia|].
  apply generate_loop_raises.
  assert (Hc : forallb promptable
                 (List.concat (map (fun i => slice reviews i (i + Z.to_nat batch_size))
                                   (py_range (List.length reviews) 0
                                      (List.length reviews) (Z.to_nat batch_size))))
               = false).
  { rewrite (py_range_slices reviews (Z.to_nat batch_size)) by lia. exact Hbad. }
  rewrite forallb_concat in Hc.
  clear Hbad.
  induction (py_range (List.length reviews) 0 (List.length reviews)
               (Z.to_nat batch_size)) as [|i offs IH]; simpl in *; [discriminate|].
  destruct (forallb promptable (slice reviews i (i + Z.to_nat batch_size)));
    simpl in *; [now apply IH | reflexivity].
Qed.

(** An answer contributes the decoded array when every element of it is an
    object with both keys, and nothing in every other case: a failed request,
    a message without content, text that does not parse, an array with one
    bad element, or a value that is not an array (a single draft object
    included). *)
Theorem answer_contributes_array_or_nothing :
  forall (answer : completion),
    contributed answer
    = match answer with
      | Content text =>
          match json_loads (json_text text) with
          | Some (JArr replies) => if forallb valid_reply replies then replies else []
          | _ => []
          end
      | _ => []
      end.
Proof.
  intros answer. unfold contributed, batch_replies.
  destruct answer as [| |text]; try reflexivity.
  destruct (json_loads (json_text text)) as [[| | |s|l|d]|]; simpl; try reflexivity.
  - destruct s as [|c s]; reflexivity.
  - destruct (forallb valid_reply l); reflexivity.
  - destruct d as [|[k v] d]; reflexivity.
Qed.

Lemma batch_replies_valid (answer : completion) (replies : list json) :
  batch_replies answer = Some replies -> forallb valid_reply replies = true.
Proof.
  unfold batch_replies.
  destruct answer as [| |text]; try discriminate.
  destruct (json_loads (json_text text)) as [parsed|]; [|discriminate].
  destruct (Py.iterate parsed) as [items|]; [|discriminate].
  destruct (forallb valid_reply items) eqn:E; [|discriminate].
  now inversion 1; subst.
Qed.

Lemma generate_loop_valid (answers : nat -> completion) (reviews : list json)
    (step : nat) :
  forall offsets k acc drafts,
    forallb valid_reply acc = true ->
    fst (generate_loop answers reviews step offsets k acc) = Return drafts ->
    forallb valid_reply drafts = true.
Proof.
  induction offsets as [|i offsets IH]; intros k acc drafts Hacc H; simpl in H.
  - now inversion H; subst.
  - destruct (build_prompt i (slice reviews i (i + step))) as [prompt| |];
      try discriminate.
    destruct (batch_replies (answers k)) as [replies|] eqn:Eb.
    + specialize (IH (S k) (acc ++ replies) drafts).
      destruct (generate_loop answers reviews step offsets (S k) (acc ++ replies))
        as [o evs].
      apply IH; [|exact H].
      rewrite forallb_app, Hacc. simpl. now apply batch_replies_valid in Eb.
    + specialize (IH (S k) acc drafts).
      destruct (generate_loop answers reviews step offsets (S k) acc) as [o evs].
      now apply IH.
Qed.

Lemma valid_reply_subscripts (d : json) :
  valid_reply d = true ->
  exists review_id reply_text,
    Py.subscript d "review_id" = Return review_id
    /\ Py.subscript d "reply_text" = Return reply_text.
Proof.
  unfold valid_reply, Py.has_key, Py.subscript.
  destruct d as [| | | | |fields]; try discriminate.
  destruct (Py.dict_get "review_id" fields) as [rid|]; [|discriminate].
  destruct (Py.dict_get "reply_text" fields) as [text|]; [|discriminate].
  intros _. exists rid, text. split; reflexivity.
Qed.

(** Whatever the service answers, every draft the call returns is an object
    with a [review_id] and a [reply_text], so reading either key of a
    returned draft never fails. *)
Theorem generate_returns_valid_drafts :
  forall (answers : nat -> completion) (reviews : list json) (batch_size : Z)
         (drafts : list json),
    fst (generate_review_replies_batch answers reviews batch_size) = Return drafts ->
    forallb valid_reply drafts = true
    /\ forall d, In d drafts ->
         exists review_id reply_text,
           Py.subscript d "review_id" = Return review_id
           /\ Py.subscript d "reply_text" = Return reply_text.
Proof.
  intros answers reviews batch_size drafts H.
  assert (Hv : forallb valid_reply drafts = true).
  { unfold generate_review_replies_batch in H.
    destruct (batch_size =? 0)%Z; [discriminate|].
    destruct (batch_size <? 0)%Z; [now inversion H|].
    eapply generate_loop_valid; [|exact H]. reflexivity. }
  split; [exact Hv|].
  intros d Hd. apply valid_reply_subscripts.
  rewrite forallb_forall in Hv. now apply Hv.
Qed.

Lemma append_empty (s : string) : s ^^ EmptyString = s.
Proof. induction s as [|c s IH]; simpl; [reflexivity | now rewrite IH]. Qed.

Lemma prompt_lines_extends (i : nat) (batch : list json) :
  forall j prompt text,
    prompt_lines i j batch prompt = Return text ->
    exists rest, text = prompt ^^ rest.
Proof.
  induction batch as [|r batch IH]; simpl; intros j prompt text H.
  - inversion H; subst. exists EmptyString. now rewrite append_empty.
  - destruct (prompt_line i j r) as [line| |]; simpl in H; try discriminate.
    apply IH in H as [rest ->].
    exists (line ^^ rest). apply append_assoc.
Qed.

(** Every request of the call is a completion request whose prompt begins
    with the instruction text. *)
Theorem generate_prompts_begin_with_instructions :
  forall (answers : nat -> completion) (reviews : list json) (batch_size : Z)
         (ev : event),
    In ev (snd (generate_review_replies_batch answers reviews batch_size)) ->
    exists rest, ev = ChatCompletion (PROMPT_INSTRUCTIONS ^^ rest).
Proof.
  intros answers reviews batch_size ev.
  unfold generate_review_replies_batch.
  destruct (batch_size =? 0)%Z; [intros []|].
  destruct (batch_size <? 0)%Z; [intros []|].
  generalize 0 at 2. generalize (@nil json).
  induction (py_range (List.length reviews) 0 (List.length reviews)
               (Z.to_nat batch_size)) as [|i offs IH]; intros acc k; simpl;
    [intros []|].
  destruct (build_prompt i (slice reviews i (i + Z.to_nat batch_size)))
    as [prompt| |] eqn:Eb; try (intros []).
  specialize (IH
    match batch_replies (answers k) with
    | Some replies => acc ++ replies
    | None => acc
    end (S k)).
  destruct (generate_loop answers reviews (Z.to_nat batch_size) offs (S k) _)
    as [o evs].
  cbn [snd] in *. intros [<-|Hin]; [|now apply IH].
  apply prompt_lines_extends in Eb as [rest ->]. now exists rest.
Qed.

End GenerateFurther.

(** *** Selecting and publishing: failures and what is read *)

Lemma is_unreplied_exact (r : json) :
  is_unreplied r
  = if breaks_selection r then Raise AttributeError else Return (eligible r).
Proof.
  unfold is_unreplied, breaks_selection, eligible, no_reply, well_formed, comment_text.
  destruct r as [| | | | |d]; simpl; try reflexivity.
  destruct (Py.truthy_opt (Py.dict_get "reviewReply" d)); simpl; [reflexivity|].
  destruct (Py.dict_get "comment" d) as [[| | |s| |]|]; simpl; try reflexivity.
  now rewrite strip_empty.
Qed.

Lemma unreplied_exact (reviews : list json) :
  unreplied reviews
  = if existsb breaks_selection reviews
    then Raise AttributeError
    else Return (filter eligible reviews).
Proof.
  induction reviews as [|r reviews IH]; simpl; [reflexivity|].
  rewrite is_unreplied_exact, IH.
  destruct (breaks_selection r); simpl; [reflexivity|].
  destruct (existsb breaks_selection reviews); reflexivity.
Qed.

(** The selection raises [AttributeError] exactly when some review is not an
    object, or has no reply and a comment that is not a string; otherwise it
    returns the eligible reviews.  A review with a reply never makes it
    raise, whatever its comment is.  When it raises, the orchestrator raises
    too and makes no request. *)
Theorem selection_raises_exactly_on_breaking_review :
  forall (json_loads : string -> option json) (instructions : string)
         (net : network) (reviews : list json) (account_id location_id : string),
    unreplied reviews
    = (if existsb breaks_selection reviews
       then Raise AttributeError
       else Return (filter eligible reviews))
    /\ (forall d, Py.truthy_opt (Py.dict_get "reviewReply" d) = true ->
                  breaks_selection (JObj d) = false)
    /\ (existsb breaks_selection reviews = true ->
        reply_to_unreplied_reviews json_loads instructions net reviews
          account_id location_id
        = (Raise AttributeError, [])).
Proof.
  intros json_loads instructions net reviews a l.
  split; [apply unreplied_exact|]. split.
  - intros d Hd. unfold breaks_selection, no_reply. now rewrite Hd.
  - intros Hb. unfold reply_to_unreplied_reviews.
    now rewrite unreplied_exact, Hb.
Qed.

Lemma publish_loop_raises_at (puts : nat -> bool) (account_id location_id : string) :
  forall pairs k j review reply e,
    nth_error pairs j = Some (review, reply) ->
    Py.subscript review "reviewId" = Raise e ->
    forallb publishable (firstn j pairs) = true ->
    (forall i, i < j -> puts (k + i) = true) ->
    publish_loop puts account_id location_id k pairs
    = (Raise e, pair_requests account_id location_id (firstn j pairs)).
Proof.
  induction pairs as [|pair pairs IH]; intros k j review reply e Hnth Hsub Hp Hok.
  - destruct j; discriminate.
  - destruct j as [|j].
    + simpl in Hnth. inversion Hnth; subst. simpl. now rewrite Hsub.
    + simpl in Hnth. rewrite firstn_cons in *. simpl in Hp.
      apply andb_prop in Hp as [Hpair Hrest].
      destruct (attempt_of_publishable pair Hpair) as (rid & text & _ & _ & Hev).
      rewrite (publish_loop_step _ _ _ _ _ _ _ (Hev account_id location_id)).
      rewrite (pair_requests_cons _ _ _ _ _ (Hev account_id location_id)).
      replace (puts k) with true
        by (symmetry; replace k with (k + 0) by lia; apply Hok; lia).
      rewrite (IH (S k) j review reply e Hnth Hsub Hrest); [reflexivity|].
      intros i Hi. replace (S k + i) with (k + S i) by lia. apply Hok. lia.
Qed.

(** An eligible review without a [reviewId] ends the publish loop with
    [KeyError] when its turn comes: the pairs before it have been attempted,
    no request is made for it or for any later pair. *)
Theorem publish_raises_on_missing_review_id :
  forall (puts : nat -> bool) (account_id location_id : string)
         (pairs : list (json * json)) (j : nat)
         (fields : list (string * json)) (reply : json),
    nth_error pairs j = Some (JObj fields, reply) ->
    Py.dict_get "reviewId" fields = None ->
    forallb publishable (firstn j pairs) = true ->
    (forall i, i < j -> puts i = true) ->
    publish_loop puts account_id location_id 0 pairs
    = (Raise (KeyError "reviewId"),
       pair_requests account_id location_id (firstn j pairs)).
Proof.
  intros puts a l pairs j fields reply Hnth Hid Hp Hok.
  apply (publish_loop_raises_at puts a l pairs 0 j (JObj fields) reply); auto.
  simpl. now rewrite Hid.
Qed.

Lemma publish_loop_bound (puts : nat -> bool) (account_id location_id : string) :
  forall pairs k,
    List.length (snd (publish_loop puts account_id location_id k pairs))
      <= List.length pairs
    /\ publish_attempts (snd (publish_loop puts account_id location_id k pairs))
       = snd (publish_loop puts account_id location_id k pairs).
Proof.
  induction pairs as [|[review reply] pairs IH]; intros k; simpl;
    [split; [lia | reflexivity]|].
  destruct (Py.subscript review "reviewId") as [rid| |]; simpl;
    try (split; [lia | reflexivity]).
  destruct (Py.subscript reply "reply_text") as [text| |]; simpl;
    try (split; [lia | reflexivity]).
  unfold post_review_reply.
  destruct (puts k); simpl; [|split; [lia | reflexivity]].
  specialize (IH (S k)).
  destruct (publish_loop puts account_id location_id (S k) pairs) as [o evs].
  cbn [snd] in *. destruct IH as [Hlen Hput].
  unfold publish_attempts in *. simpl. rewrite Hput. split; [lia | reflexivity].
Qed.

(** However a run ends, it has made at most one publish attempt per eligible
    review and at most one per draft: drafts beyond the eligible reviews are
    never published. *)
Theorem publish_attempts_bounded :
  forall (json_loads : string -> option json) (instructions : string)
         (net : network) (reviews : list json) (account_id location_id : string),
    let trace :=
      snd (reply_to_unreplied_reviews json_loads instructions net reviews
             account_id location_id) in
    List.length (publish_attempts trace) <= List.length (filter eligible reviews)
    /\ forall replies,
        fst (generate_review_replies_batch json_loads instructions (chat net)
               (filter eligible reviews) 10) = Return replies ->
        List.length (publish_attempts trace) <= List.length replies.
Proof.
  intros json_loads instructions net reviews a l trace. subst trace.
  unfold reply_to_unreplied_reviews. rewrite unreplied_exact.
  destruct (existsb breaks_selection reviews); cbn [snd];
    [split; [simpl; lia | intros; simpl; lia]|].
  destruct (filter eligible reviews) as [|r el] eqn:Eel; cbv beta iota;
    [split; [simpl; lia | intros; simpl; lia]|].
  pose proof (generate_no_put json_loads instructions (chat net) (r :: el) 10) as Hg.
  destruct (generate_review_replies_batch json_loads instructions (chat net)
              (r :: el) 10) as [o gevs].
  cbn [fst snd] in *.
  destruct o as [replies| |]; cbn [snd bind].
  - destruct (publish_loop_bound (put net) a l (combine (r :: el) replies) 0)
      as [Hlen Hput].
    destruct (publish_loop (put net) a l 0 (combine (r :: el) replies)) as [o' pevs].
    cbn [snd] in *.
    assert (Hall : publish_attempts (gevs ++ pevs) = pevs).
    { unfold publish_attempts in *. now rewrite filter_app, Hg, Hput. }
    rewrite Hall. rewrite length_combine in Hlen.
    split; [lia|]. intros replies' Hr. inversion Hr; subst. lia.
  - rewrite Hg. split; [simpl; lia | intros; discriminate].
  - rewrite Hg. split; [simpl; lia | intros; discriminate].
Qed.

(** Publishing reads the [reply_text] of a draft and nothing else: drafts
    that agree on it give the same run, whatever their [review_id] says. *)
Theorem publish_reads_reply_text_only :
  forall (puts : nat -> bool) (account_id location_id : string)
         (reviews drafts drafts' : list json) (k : nat),
    Forall2 (fun d d' => Py.subscript d "reply_text" = Py.subscript d' "reply_text")
            drafts drafts' ->
    publish_loop puts account_id location_id k (combine reviews drafts)
    = publish_loop puts account_id location_id k (combine reviews drafts').
Proof.
  intros puts a l reviews.
  induction reviews as [|r reviews IH]; intros drafts drafts' k H; [reflexivity|].
  destruct H as [|d d' drafts drafts' Hd Hrest]; [reflexivity|].
  simpl. rewrite Hd.
  destruct (Py.subscript r "reviewId") as [rid| |]; try reflexivity.
  destruct (Py.subscript d' "reply_text") as [text| |]; try reflexivity.
  destruct (post_review_reply puts k a l rid text) as [[u| |] evs]; try reflexivity.
  now rewrite (IH drafts drafts' (S k) Hrest).
Qed.

(** *** The entry point: what the caller gets *)

Lemma generate_loop_not_running (json_loads : string -> option json)
    (instructions : string) (answers : nat -> completion) (reviews : list json)
    (step : nat) :
  forall offsets k acc,
    fst (generate_loop json_loads instructions answers reviews step offsets k acc)
    <> Running.
Proof.
  induction offsets as [|i offsets IH]; intros k acc; simpl; [discriminate|].
  destruct (forallb promptable (slice reviews i (i + step))) eqn:Ei.
  - rewrite (build_prompt_returns instructions i _ Ei).
    specialize (IH (S k)
      match batch_replies json_loads (answers k) with
      | Some replies => acc ++ replies
      | None => acc
      end).
    destruct (generate_loop json_loads instructions answers reviews step offsets
                (S k) _) as [o evs].
    exact IH.
  - unfold build_prompt. rewrite (prompt_lines_raises i _ Ei). discriminate.
Qed.

Lemma publish_loop_not_running (puts : nat -> bool) (account_id location_id : string) :
  forall pairs k,
    fst (publish_loop puts account_id location_id k pairs) <> Running.
Proof.
  induction pairs as [|[review reply] pairs IH]; intros k; simpl; [discriminate|].
  unfold Py.subscript.
  destruct review as [| | | | |d]; try discriminate.
  destruct (Py.dict_get "reviewId" d) as [rid|]; [|discriminate].
  destruct reply as [| | | | |d']; try discriminate.
  destruct (Py.dict_get "reply_text" d') as [text|]; [|discriminate].
  unfold post_review_reply.
  destruct (puts k); [|discriminate].
  specialize (IH (S k)).
  destruct (publish_loop puts account_id location_id (S k) pairs) as [o evs].
  exact IH.
Qed.

Lemma orchestrator_not_running (json_loads : string -> option json)
    (instructions : string) (net : network) (reviews : list json)
    (account_id location_id : string) :
  fst (reply_to_unreplied_reviews json_loads instructions net reviews
         account_id location_id) <> Running.
Proof.
  unfold reply_to_unreplied_reviews. rewrite unreplied_exact.
  destruct (existsb breaks_selection reviews); [discriminate|].
  destruct (filter eligible reviews) as [|r el]; [discriminate|].
  unfold generate_review_replies_batch.
  change (10 =? 0)%Z with false. change (10 <? 0)%Z with false. cbv iota.
  pose proof (generate_loop_not_running json_loads instructions (chat net) (r :: el)
                (Z.to_nat 10)
                (py_range (List.length (r :: el)) 0 (List.length (r :: el))
                   (Z.to_nat 10)) 0 []) as Hg.
  destruct (generate_loop json_loads instructions (chat net) (r :: el) (Z.to_nat 10)
              _ 0 []) as [o gevs].
  cbn [fst] in Hg.
  destruct o as [replies| |]; cbn [bind fst]; [|discriminate | congruence].
  pose proof (publish_loop_not_running (put net) account_id location_id
                (combine (r :: el) replies) 0) as Hp.
  destruct (publish_loop (put net) account_id location_id 0
              (combine (r :: el) replies)) as [o' pevs].
  exact Hp.
Qed.

Section EntryFurther.

Variable strptime : string -> option Z.
Variable json_loads : string -> option json.
Variable py_int : string -> option Z.
Variable PROMPT_INSTRUCTIONS : string.
Variable ENV : string.

Local Abbreviation fetch_gmb_reviews := (fetch_gmb_reviews strptime).
Local Abbreviation generate_review_replies_batch :=
  (generate_review_replies_batch json_loads PROMPT_INSTRUCTIONS).
Local Abbreviation reply_to_unreplied_reviews :=
  (reply_to_unreplied_reviews json_loads PROMPT_INSTRUCTIONS).
Local Abbreviation reply_reviews :=
  (reply_reviews strptime json_loads py_int PROMPT_INSTRUCTIONS ENV).
Local Abbreviation reply_reviews_gated :=
  (reply_reviews_gated strptime json_loads py_int PROMPT_INSTRUCTIONS ENV).

Ltac response_leaf H :=
  inversion H; subst; clear H; cbn;
  split; [repeat ((left; reflexivity) || right)|];
  split; [reflexivity|];
  split; [intros [?|[?|?]]; (reflexivity || discriminate)|];
  split; [intros ?; ((eexists; reflexivity) || discriminate)
         | intros [? ?]; (reflexivity || discriminate)].

(** Every answer of the handler has status 301, 204, 400, 200 or 500; it
    carries the CORS headers unless it is the 301 redirect; a 301, 204 or 400
    is given before any request is made; and the status is 500 exactly when
    the body reports an exception. *)
Theorem response_status_and_headers :
  forall (fuel : nat) (net : network) (now : Z) (req : request)
         (resp : http_response) (trace : list event),
    reply_reviews fuel net now req = (Some resp, trace) ->
    In (status resp) [301; 204; 400; 200; 500]
    /\ cors_headers resp = negb (status resp =? 301)
    /\ (status resp = 301 \/ status resp = 204 \/ status resp = 400 -> trace = [])
    /\ (status resp = 500 <-> exists e, content resp = ErrorOf e).
Proof.
  intros fuel net now req resp trace H.
  unfold reply_reviews in H.
  destruct (String.eqb ENV "development"
            && negb (String.eqb (or_default (forwarded_proto req) "http") "https"));
    [response_leaf H|].
  destruct (String.eqb (method req) "OPTIONS"); [response_leaf H|].
  destruct (arg_missing (arg_account_id req) || arg_missing (arg_location_id req));
    [response_leaf H|].
  destruct (py_int (or_default (arg_days req) "1")) as [days|]; [|response_leaf H].
  destruct (fetch_gmb_reviews fuel (feed net) now _ _ days) as [[reviews| |] evs];
    [|response_leaf H | discriminate].
  destruct (reply_to_unreplied_reviews net reviews _ _) as [[u| |] evs'];
    [|response_leaf H | discriminate].
  destruct (unreplied reviews) as [el| |];
    [response_leaf H | response_leaf H | discriminate].
Qed.


(** When a publish fails, the caller gets 500 although the replies before
    the failing one have been published and stay published. *)
Theorem failed_publish_gives_500 :
  forall (fuel : nat) (net : network) (now : Z) (req : request) (days : Z)
         (reviews el replies : list json) (evs gevs : list event) (j : nat),
    passes_gates ENV req = true ->
    py_int (or_default (arg_days req) "1") = Some days ->
    let account_id := or_default (arg_account_id req) "" in
    let location_id := or_default (arg_location_id req) "" in
    fetch_gmb_reviews fuel (feed net) now account_id location_id days
      = (Return reviews, evs) ->
    unreplied reviews = Return el ->
    el <> [] ->
    generate_review_replies_batch (chat net) el 10 = (Return replies, gevs) ->
    forallb publishable (combine el replies) = true ->
    j < List.length (combine el replies) ->
    (forall i, i < j -> put net i = true) ->
    put net j = false ->
    reply_reviews fuel net now req
    = (Some (mkResponse 500 (ErrorOf (RuntimeError "Failed to post reply")) true),
       evs ++ gevs
       ++ pair_requests account_id location_id (firstn (S j) (combine el replies))).
Proof.
  intros fuel net now req days reviews el replies evs gevs j Hgate Hdays a l
         Hfetch Hu Hne Hg Hp Hj Hok Hfail.
  rewrite (reply_reviews_gated fuel net now req Hgate). cbv zeta.
  fold a l. rewrite Hdays, Hfetch.
  rewrite (reply_to_unreplied_reviews_publishes json_loads PROMPT_INSTRUCTIONS
             net reviews a l el replies gevs Hu Hne Hg).
  rewrite (publish_loop_first_failure (put net) a l (combine el replies) 0 j Hp Hj Hok
             Hfail).
  reflexivity.
Qed.

(** On a finite feed the handler always answers: with room for one request
    more than the feed has reviews, the fetch loop is over and a response is
    given. *)
Theorem handler_answers_on_finite_feed :
  forall (fuel : nat) (net : network) (now : Z) (req : request) (pages : list page),
    feed net = script_of pages ->
    List.length (flat_map reviews pages) < fuel ->
    exists resp, fst (reply_reviews fuel net now req) = Some resp.
Proof.
  intros fuel net now req pages Hfeed Hfuel.
  unfold reply_reviews.
  destruct (String.eqb ENV "development"
            && negb (String.eqb (or_default (forwarded_proto req) "http") "https"));
    [eexists; reflexivity|].
  destruct (String.eqb (method req) "OPTIONS"); [eexists; reflexivity|].
  destruct (arg_missing (arg_account_id req) || arg_missing (arg_location_id req));
    [eexists; reflexivity|].
  destruct (py_int (or_default (arg_days req) "1")) as [days|];
    [|eexists; reflexivity].
  assert (Hrun : fst (fetch_gmb_reviews fuel (feed net) now
                        (or_default (arg_account_id req) "")
                        (or_default (arg_location_id req) "") days) <> Running).
  { unfold fetch_gmb_reviews.
    destruct (PyStr.is_empty _ || PyStr.is_empty _); [discriminate|].
    unfold Clock.minus_days.
    destruct (Z.abs days >? Clock.MAX_DELTA_DAYS)%Z; [discriminate|].
    destruct ((0 <=? now - days * Clock.US_PER_DAY)
              && (now - days * Clock.US_PER_DAY <=? Clock.MAX_US))%Z;
      [|discriminate].
    rewrite Hfeed.
    destruct (fetch_loop_bounded strptime (script_of pages)
                (reviews_url (or_default (arg_account_id req) "")
                             (or_default (arg_location_id req) ""))
                (now - days * Clock.US_PER_DAY)%Z
                (in_window_total strptime (now - days * Clock.US_PER_DAY)%Z pages)
                (in_window_upto_script strptime pages _)) as (n & Hn & Hdone).
    apply Hdone.
    assert (in_window_total strptime (now - days * Clock.US_PER_DAY)%Z pages
            <= List.length (flat_map reviews pages))
      by (unfold in_window_total; apply filter_length_le).
    lia. }
  destruct (fetch_gmb_reviews fuel (feed net) now _ _ days) as [[reviews| |] evs];
    [|eexists; reflexivity | now contradiction Hrun].
  pose proof (orchestrator_not_running json_loads PROMPT_INSTRUCTIONS net reviews
                (or_default (arg_account_id req) "")
                (or_default (arg_location_id req) "")) as Ho.
  destruct (reply_to_unreplied_reviews net reviews _ _) as [[u| |] evs'];
    [|eexists; reflexivity | now contradiction Ho].
  rewrite unreplied_exact.
  destruct (existsb breaks_selection reviews); eexists; reflexivity.
Qed.

End EntryFurther.

(** *** The further properties on concrete runs *)

Lemma fetch_returns_through_first_stop_witness :
  fetch_gmb_reviews Basic.strptime 5 Sample.long_feed Sample.now "123" "456" 1
  = (Return (filter (in_window Basic.strptime Sample.cutoff)
               (fetched_reviews Sample.long_feed 2)),
     page_requests Sample.long_feed (reviews_url "123" "456") 2).
Proof.
  apply (fetch_returns_through_first_stop Basic.strptime 5 Sample.long_feed
           Sample.now "123" "456" 1 Sample.cutoff 1).
  - reflexivity.
  - reflexivity.
  - vm_compute. reflexivity.
  - intros [|i] Hi; [vm_compute; reflexivity | lia].
  - vm_compute. reflexivity.
  - lia.
Defined.


(** One page with two recent reviews: one request for two reviews. *)
Lemma fetch_requests_bounded_by_result_witness :
  1 <= List.length [GetReviews (reviews_url "123" "456") None]
    <= List.length [Sample.slow; Sample.jane] + 1.
Proof.
  apply (fetch_requests_bounded_by_result Basic.strptime 5 Sample.recent_feed
           Sample.now "123" "456" 1).
  vm_compute. reflexivity.
Defined.

(** Five reviews in batches of two: three completion requests. *)
Lemma generate_request_count_witness :
  let trace :=
    snd (generate_review_replies_batch Basic.json_loads MoreSample.instructions
           (Sample.answer_once Sample.five_drafts) Sample.five_reviews 2) in
  List.length trace = batch_count (List.length Sample.five_reviews) (Z.to_nat 2)
  /\ forallb is_completion trace = true.
Proof.
  apply (proj2 (proj2 (generate_request_count Basic.json_loads MoreSample.instructions
                         (Sample.answer_once Sample.five_drafts)
                         Sample.five_reviews 2))).
  - lia.
  - reflexivity.
Defined.

(** A review whose reviewer is a string makes the call raise. *)
Lemma generate_raises_on_unpromptable_review_witness :
  fst (generate_review_replies_batch Basic.json_loads MoreSample.instructions
         (Sample.answer_once Sample.two_drafts)
         [Sample.jane; MoreSample.odd_review] 10)
  = Raise AttributeError.
Proof.
  apply (generate_raises_on_unpromptable_review Basic.json_loads
           MoreSample.instructions (Sample.answer_once Sample.two_drafts)
           [Sample.jane; MoreSample.odd_review] 10).
  - lia.
  - reflexivity.
Defined.

(** Two drafts returned for two reviews, both with their two keys. *)
Lemma generate_returns_valid_drafts_witness :
  let drafts := [Sample.draft "r2" "Sorry for the wait";
                 Sample.draft "r1" "Thank you Jane"] in
  forallb valid_reply drafts = true
  /\ forall d, In d drafts ->
       exists review_id reply_text,
         Py.subscript d "review_id" = Return review_id
         /\ Py.subscript d "reply_text" = Return reply_text.
Proof.
  apply (generate_returns_valid_drafts Basic.json_loads MoreSample.instructions
           (Sample.answer_once Sample.two_drafts) [Sample.slow; Sample.jane] 10).
  vm_compute. reflexivity.
Defined.

(** The prompt for one review begins with the instruction text. *)
Lemma generate_prompts_begin_with_instructions_witness :
  exists rest,
    ChatCompletion (prompt_text MoreSample.instructions 0 [Sample.jane])
    = ChatCompletion (MoreSample.instructions ^^ rest).
Proof.
  apply (generate_prompts_begin_with_instructions Basic.json_loads
           MoreSample.instructions (Sample.answer_once Sample.two_drafts)
           [Sample.jane] 10).
  vm_compute. left. reflexivity.
Defined.

(** An unreplied review with a null comment: the orchestrator raises and makes no request. *)
Lemma selection_raises_witness :
  reply_to_unreplied_reviews Basic.json_loads MoreSample.instructions
    Sample.happy_net [Sample.meh; MoreSample.null_comment] "123" "456"
  = (Raise AttributeError, []).
Proof.
  apply (proj2 (proj2 (selection_raises_exactly_on_breaking_review
                         Basic.json_loads MoreSample.instructions Sample.happy_net
                         [Sample.meh; MoreSample.null_comment] "123" "456"))).
  reflexivity.
Defined.

(** Three pairs, the second review without a reviewId: one attempt, then KeyError. *)
Lemma publish_raises_on_missing_review_id_witness :
  publish_loop Sample.always "123" "456" 0
    [(Sample.jane, Sample.draft "r1" "Thank you Jane");
     (MoreSample.nameless, Sample.draft "r2" "Thanks");
     (Sample.slow, Sample.draft "r3" "Sorry")]
  = (Raise (KeyError "reviewId"),
     pair_requests "123" "456"
       (firstn 1 [(Sample.jane, Sample.draft "r1" "Thank you Jane");
                  (MoreSample.nameless, Sample.draft "r2" "Thanks");
                  (Sample.slow, Sample.draft "r3" "Sorry")])).
Proof.
  apply (publish_raises_on_missing_review_id Sample.always "123" "456" _ 1
           [("comment", JStr "No id")] (Sample.draft "r2" "Thanks")).
  - reflexivity.
  - reflexivity.
  - reflexivity.
  - intros i Hi. reflexivity.
Defined.

(** Drafts naming other reviews but with the same texts give the same run. *)
Lemma publish_reads_reply_text_only_witness :
  publish_loop (Sample.fails_at 1) "123" "456" 0
    (combine [Sample.jane; Sample.slow]
             [Sample.draft "r1" "Thanks"; Sample.draft "r2" "Sorry"])
  = publish_loop (Sample.fails_at 1) "123" "456" 0
      (combine [Sample.jane; Sample.slow]
               [Sample.draft "zzz" "Thanks"; Sample.draft "zzz" "Sorry"]).
Proof.
  apply (publish_reads_reply_text_only (Sample.fails_at 1) "123" "456").
  repeat constructor.
Defined.

(** The run answered 200 has the CORS headers. *)
Lemma response_status_and_headers_witness :
  let resp := mkResponse 200 (StatusText "Processed 2 unreplied reviews") true in
  let trace := snd (Sample.handle Sample.happy_net (Sample.get_request (Some "1"))) in
  In (status resp) [301; 204; 400; 200; 500]
  /\ cors_headers resp = negb (status resp =? 301)
  /\ (status resp = 301 \/ status resp = 204 \/ status resp = 400 -> trace = [])
  /\ (status resp = 500 <-> exists e, content resp = ErrorOf e).
Proof.
  apply (response_status_and_headers Basic.strptime Basic.json_loads Basic.py_int
           EmptyString "production" 5 Sample.happy_net Sample.now
           (Sample.get_request (Some "1"))).
  vm_compute. reflexivity.
Defined.


(** Five reviews, the second publish fails: 500 after two publish attempts. *)
Lemma failed_publish_gives_500_witness :
  Sample.handle MoreSample.partial_net (Sample.get_request (Some "1"))
  = (Some (mkResponse 500 (ErrorOf (RuntimeError "Failed to post reply")) true),
     [GetReviews (reviews_url "123" "456") None]
     ++ completion_requests EmptyString Sample.five_reviews 10
     ++ pair_requests "123" "456"
          (firstn 2 (combine Sample.five_reviews Sample.five_replies))).
Proof.
  apply (failed_publish_gives_500 Basic.strptime Basic.json_loads Basic.py_int
           EmptyString "production" 5 MoreSample.partial_net Sample.now
           (Sample.get_request (Some "1")) 1 Sample.five_reviews
           Sample.five_reviews Sample.five_replies
           [GetReviews (reviews_url "123" "456") None]
           (completion_requests EmptyString Sample.five_reviews 10) 1).
  - reflexivity.
  - reflexivity.
  - vm_compute. reflexivity.
  - vm_compute. reflexivity.
  - discriminate.
  - vm_compute. reflexivity.
  - vm_compute. reflexivity.
  - simpl. lia.
  - intros [|i] Hi; [reflexivity | lia].
  - reflexivity.
Defined.

(** A feed of two pages: the handler answers. *)
Lemma handler_answers_on_finite_feed_witness :
  exists resp,
    fst (Sample.handle MoreSample.finite_net (Sample.get_request (Some "1")))
    = Some resp.
Proof.
  apply (handler_answers_on_finite_feed Basic.strptime Basic.json_loads Basic.py_int
           EmptyString "production" 5 MoreSample.finite_net Sample.now
           (Sample.get_request (Some "1")) MoreSample.two_pages).
  - reflexivity.
  - simpl. lia.
Defined.

(** *** Identifiers, batches that fail, and days out of range *)

Lemma with_prefix_startswith (p s : string) :
  PyStr.startswith p (with_prefix p s) = true.
Proof.
  unfold with_prefix.
  destruct (PyStr.startswith p s) eqn:E; [exact E | apply startswith_append].
Qed.

Lemma startswith_split (p : string) :
  forall s, PyStr.startswith p s = true -> exists rest, s = p ^^ rest.
Proof.
  unfold PyStr.startswith.
  induction p as [|c p IH]; intros s H.
  - exists s. reflexivity.
  - destruct s as [|c' s]; [discriminate|]. simpl in H.
    destruct (ascii_dec c c') as [->|]; [|discriminate].
    destruct (IH s H) as [rest ->]. exists rest. reflexivity.
Qed.

(** Whatever identifiers are passed, the identifiers used have their prefix,
    and both platform URLs have the form
    [.../v4/accounts/<..>/locations/<..>/reviews...]. *)
Theorem urls_have_prefixed_form :
  forall (account_id location_id : string) (review_id : json),
    PyStr.startswith "accounts/" (normalize_account account_id) = true
    /\ PyStr.startswith "locations/" (normalize_location location_id) = true
    /\ (exists account location,
          reviews_url account_id location_id
          = BASE_URL_LOCATIONS_V4 ^^ "/accounts/" ^^ account
              ^^ "/locations/" ^^ location ^^ "/reviews"
          /\ reply_url account_id location_id review_id
             = BASE_URL_LOCATIONS_V4 ^^ "/accounts/" ^^ account
                 ^^ "/locations/" ^^ location
                 ^^ "/reviews/" ^^ PyFormat.str review_id ^^ "/reply").
Proof.
  intros a l rid.
  pose proof (with_prefix_startswith "accounts/" a) as Ha.
  pose proof (with_prefix_startswith "locations/" l) as Hl.
  split; [exact Ha|]. split; [exact Hl|].
  destruct (startswith_split _ _ Ha) as [account Ea].
  destruct (startswith_split _ _ Hl) as [location El].
  exists account, location.
  unfold reviews_url, reply_url, normalize_account, normalize_location.
  rewrite Ea, El.
  split; repeat (rewrite ?append_assoc; simpl); reflexivity.
Qed.

(** When the first batch of a run contributes nothing and the second
    contributes a draft, that draft, written for a review of the second
    batch, is published to the first eligible review: a skipped batch shifts
    the positional pairing. *)
Theorem skipped_batch_shifts_the_pairing :
  forall (json_loads : string -> option json) (instructions : string)
         (net : network) (reviews : list json) (account_id location_id : string)
         (first : json) (others : list json) (draft : json) (drafts : list json)
         (ev : event),
    unreplied reviews = Return (first :: others) ->
    forallb promptable (first :: others) = true ->
    10 <= List.length others ->
    contributed json_loads (chat net 0) = [] ->
    contributed json_loads (chat net 1) = draft :: drafts ->
    attempt_of account_id location_id (first, draft) = Return ev ->
    hd_error (publish_attempts
                (snd (reply_to_unreplied_reviews json_loads instructions net reviews
                        account_id location_id)))
    = Some ev
    /\ ~ In draft (contributed json_loads (chat net 0))
    /\ In first (slice (first :: others) 0 10).
Proof.
  intros json_loads instructions net reviews a l first others draft drafts ev
         Hu Hp Hlen H0 H1 Hev.
  split; [|split; [rewrite H0; intros [] | left; reflexivity]].
  pose proof (generate_returns json_loads instructions (chat net) (first :: others) 10
                ltac:(lia) Hp) as Hg.
  unfold batches in Hg. rewrite length_map in Hg.
  rewrite (py_range_length (Z.to_nat 10) ltac:(lia)) in Hg by lia.
  assert (Hcount : exists n,
             batch_count (List.length (first :: others) - 0) (Z.to_nat 10) = S (S n)).
  { rewrite (batch_count_step _ (Z.to_nat 10)) by (simpl; lia).
    rewrite (batch_count_step _ (Z.to_nat 10)) by (simpl; lia).
    eexists. reflexivity. }
  destruct Hcount as [n Hn]. rewrite Hn in Hg.
  unfold contributed_upto in Hg.
  change (seq 0 (S (S n))) with (0 :: 1 :: seq 2 n) in Hg.
  simpl flat_map in Hg. rewrite H0, H1 in Hg. simpl app in Hg.
  rewrite (reply_to_unreplied_reviews_publishes json_loads instructions net reviews
             a l (first :: others) _ _ Hu ltac:(discriminate) Hg).
  cbn [snd].
  assert (Hgen : publish_attempts
                   (completion_requests instructions (first :: others) (Z.to_nat 10))
                 = []).
  { pose proof (generate_no_put json_loads instructions (chat net)
                  (first :: others) 10) as Hn'.
    now rewrite Hg in Hn'. }
  unfold publish_attempts in *. rewrite filter_app, Hgen. cbn [app combine].
  rewrite (publish_loop_step _ _ _ _ _ _ _ Hev).
  unfold attempt_of in Hev. simpl in Hev.
  destruct (Py.subscript first "reviewId"); simpl in Hev; try discriminate.
  destruct (Py.subscript draft "reply_text"); simpl in Hev; try discriminate.
  inversion Hev; subst.
  destruct (put net 0); reflexivity.
Qed.

(** Eleven reviews, the first batch answered with prose: the draft for [r11] is published to [r1]. *)
Lemma skipped_batch_shifts_the_pairing_witness :
  hd_error (publish_attempts
              (snd (reply_to_unreplied_reviews Basic.json_loads EmptyString
                      MoreSample.shifted_net MoreSample.eleven_reviews "123" "456")))
  = Some (PutReply (reply_url "123" "456" (JStr "r1")) (JStr "Thank you r11"))
  /\ ~ In (Sample.draft "r11" "Thank you r11")
          (contributed Basic.json_loads (chat MoreSample.shifted_net 0))
  /\ In (Sample.numbered "r1")
        (slice (Sample.numbered "r1" :: tl MoreSample.eleven_reviews) 0 10).
Proof.
  apply (skipped_batch_shifts_the_pairing Basic.json_loads EmptyString
           MoreSample.shifted_net MoreSample.eleven_reviews "123" "456"
           (Sample.numbered "r1") (tl MoreSample.eleven_reviews)
           (Sample.draft "r11" "Thank you r11") []).
  - vm_compute. reflexivity.
  - vm_compute. reflexivity.
  - simpl. lia.
  - vm_compute. reflexivity.
  - vm_compute. reflexivity.
  - reflexivity.
Defined.

(** A [days] beyond what a [timedelta] holds passes the integer check and
    then makes the cutoff overflow: the caller gets 500 with
    [OverflowError], not 400, and no request is made. *)
Theorem huge_days_gives_500 :
  forall (strptime : string -> option Z) (json_loads : string -> option json)
         (py_int : string -> option Z) (instructions ENV : string)
         (fuel : nat) (net : network) (now : Z) (req : request) (days : Z),
    passes_gates ENV req = true ->
    py_int (or_default (arg_days req) "1") = Some days ->
    (Clock.MAX_DELTA_DAYS < Z.abs days)%Z ->
    reply_reviews strptime json_loads py_int instructions ENV fuel net now req
    = (Some (mkResponse 500 (ErrorOf OverflowError) true), []).
Proof.
  intros strptime json_loads py_int instructions ENV fuel net now req days
         Hgate Hdays Hbig.
  rewrite (reply_reviews_gated strptime json_loads py_int instructions ENV
             fuel net now req Hgate). cbv zeta. rewrite Hdays.
  unfold fetch_gmb_reviews.
  unfold passes_gates in Hgate.
  apply andb_prop in Hgate as [_ H]. apply negb_true_iff in H.
  apply orb_false_elim in H as [Ha Hl].
  unfold arg_missing in *.
  destruct (arg_account_id req) as [a|], (arg_location_id req) as [l|];
    try discriminate.
  simpl or_default. rewrite Ha, Hl. simpl orb. cbv iota.
  unfold Clock.minus_days.
  replace (Z.abs days >? Clock.MAX_DELTA_DAYS)%Z with true
    by (symmetry; apply Z.gtb_lt; lia).
  reflexivity.
Qed.

(** A [days] of 1000000000: 500 with OverflowError and no request. *)
Lemma huge_days_gives_500_witness :
  Sample.handle Sample.happy_net (Sample.get_request (Some "1000000000"))
  = (Some (mkResponse 500 (ErrorOf OverflowError) true), []).
Proof.
  apply (huge_days_gives_500 Basic.strptime Basic.json_loads Basic.py_int
           EmptyString "production" 5 Sample.happy_net Sample.now
           (Sample.get_request (Some "1000000000")) 1000000000).
  - reflexivity.
  - vm_compute. reflexivity.
  - vm_compute. reflexivity.
Defined.


(** Five eligible reviews and a failing second publish: at most five
    attempts, and at most as many as there are drafts. *)
Lemma publish_attempts_bounded_witness :
  List.length (publish_attempts (snd (Sample.orchestrate (Sample.failing_net 1)
                                        Sample.five_reviews)))
  <= List.length Sample.five_replies.
Proof.
  apply (proj2 (publish_attempts_bounded Basic.json_loads EmptyString
                  (Sample.failing_net 1) Sample.five_reviews "123" "456")).
  vm_compute. reflexivity.
Defined.
